(** * Host metrics collector of bs (package [metric], file host.go)

    A shallow embedding of [HostClient] and of the logging helper it uses
    (package [bslog]), followed by the properties of the collection cycle
    and of the CPU utilisation computation.

    Go's [float64] is Rocq's primitive binary64 float, so that a division
    by zero yields what the machine yields.  The gopsutil calls are the
    boundary of the program: one collection cycle sees them through a
    [Platform] record holding what each call returns, and every call made is
    recorded in the [World], next to the lines written by the logger and the
    collector object itself. *)

From Stdlib Require Import Floats ZArith String List.
From Stdlib Require Import Ascii.
From stdpp Require Import gmap strings list fin_maps.

Local Open Scope string_scope.

(** ** Base types of the Go program *)

Definition float64 : Set := PrimFloat.float.

(** An unsigned 64-bit counter, as its value. *)
Definition uint64 : Set := Z.

(** Modelled from the spec: the package's own numeric type [float] (the value
    type of every metric mapping) is declared in a file of the package that
    is not among the sources; the spec calls the values floating-point, so it
    is taken as [float64] and the conversion [float(x)] of a [float64] is the
    identity. *)
Definition float : Set := float64.

Definition float_of_float64 (x : float64) : float := x.

(** [float(x)] for an unsigned integer [x]: rounding to the nearest
    representable value, ties to even. *)
Definition float_of_uint64 (x : uint64) : float :=
  SF2Prim (binary_normalize prec emax x 0 false).

(** A metric mapping, [map[string]float]. *)
Abbreviation stats := (gmap string float).

(** ** Package fmt: the one verb the program uses *)

Module fmt.

(** [Sprintf format args], for formats whose every percent sign starts the
    verb [%s], arguments that are strings, and no more arguments than verbs:
    there it gives the string Go gives, a verb without an argument printing
    [%!s(MISSING)].  Other verbs, [%%], a trailing percent sign and Go's
    [%!(EXTRA ...)] for surplus arguments are left out; host.go formats with
    one [%s] and one argument, and the properties of the logger are stated
    for formats and arguments within these bounds. *)
Fixpoint Sprintf (format : string) (args : list string) : string :=
  match format with
  | EmptyString => EmptyString
  | String c rest =>
      match rest with
      | String d rest' =>
          if (Ascii.eqb c "%" && Ascii.eqb d "s")%bool then
            match args with
            | a :: args' => a ++ Sprintf rest' args'
            | [] => "%!s(MISSING)" ++ Sprintf rest' []
            end
          else String c (Sprintf rest args)
      | EmptyString => String c EmptyString
      end
  end.

End fmt.

(** ** The statistics gopsutil hands over

    Only the fields host.go reads are kept. *)

Module load.
Record LoadAvgStat : Set :=
  { Load1 : float64; Load5 : float64; Load15 : float64 }.
End load.

Module mem.
Record VirtualMemoryStat : Set :=
  { Total : uint64; Used : uint64; Free : uint64 }.
(** The fields [Total], [Used] and [Free] of the swap statistics, prefixed
    to keep them apart from those of the virtual memory statistics. *)
Record SwapMemoryStat : Set :=
  { SwapTotal : uint64; SwapUsed : uint64; SwapFree : uint64 }.
End mem.

Module disk.
Record DiskUsageStat : Set :=
  { Total : uint64; Used : uint64; Free : uint64 }.
End disk.

Module cpu.
(** The cumulative counters of one sample.  [Total] stands for the value of
    the sample's [Total()] method, gopsutil's sum over all of the sample's
    categories, those host.go does not read included; nothing is assumed
    about how it relates to the five counters kept here. *)
Record CPUTimesStat : Set :=
  { User : float64;
    System : float64;
    Idle : float64;
    Stolen : float64;
    Iowait : float64;
    Total : float64 }.
End cpu.

Module net.
Record NetIOCountersStat : Set :=
  { Name : string; BytesSent : uint64; BytesRecv : uint64 }.
End net.

(** ** Errors *)

(** A failure reported by a gopsutil call.  Its dynamic type belongs to
    another package, so it is never an [errInterfaceNotFound]. *)
Inductive platformError : Set :=
| PlatformReadError (msg : string).

Inductive error : Set :=
| errorString (s : string)              (* errors.New(s) *)
| errInterfaceNotFound (name : string)
| platformErr (e : platformError).

Definition Error (e : error) : string :=
  match e with
  | errorString s => s
  | errInterfaceNotFound name => fmt.Sprintf "interface %s not found" [name]
  | platformErr (PlatformReadError msg) => msg
  end.

(** What a call leaves behind: a value, an error ([return nil, err]) or a
    run-time panic. *)
Inductive result (A : Type) : Type :=
| Ok (a : A)
| Err (e : error)
| Panic (msg : string).
Arguments Ok {A} a.
Arguments Err {A} e.
Arguments Panic {A} msg.

(** ** The platform and the world *)

(** What each gopsutil call returns during one collection cycle. *)
Record Platform : Type :=
  { load_LoadAvg : platformError + load.LoadAvgStat;
    mem_VirtualMemory : platformError + mem.VirtualMemoryStat;
    mem_SwapMemory : platformError + mem.SwapMemoryStat;
    disk_DiskUsage : string -> platformError + disk.DiskUsageStat;
    host_Uptime : platformError + uint64;
    cpu_CPUTimes : bool -> platformError + list cpu.CPUTimesStat;
    net_NetIOCounters : bool -> platformError + list net.NetIOCountersStat }.

(** The calls a cycle can make to the platform. *)
Inductive Call : Set :=
| CallLoadAvg
| CallVirtualMemory
| CallSwapMemory
| CallDiskUsage (path : string)
| CallUptime
| CallCPUTimes (percpu : bool)
| CallNetIOCounters (pernic : bool).

Record HostClient : Set :=
  { ifaceName : string;
    lastCPUStats : option cpu.CPUTimesStat }.

(** The object [h] points to, the platform calls made so far (oldest first)
    and the lines written through [bslog.Logger] (oldest first, without the
    time stamp the logger puts in front). *)
Record World : Type :=
  { host : HostClient;
    calls : list Call;
    Logger : list string }.

Definition M (A : Type) : Type := World -> result A * World.

Definition ret {A} (a : A) : M A := fun w => (Ok a, w).

Definition bind {A B} (m : M A) (k : A -> M B) : M B := fun w =>
  match m w with
  | (Ok a, w') => k a w'
  | (Err e, w') => (Err e, w')
  | (Panic msg, w') => (Panic msg, w')
  end.

Notation "x <~ m ;; k" := (bind m (fun x => k))
  (at level 100, m at next level, right associativity).

Definition recordCall (c : Call) (w : World) : World :=
  {| host := host w; calls := calls w ++ [c]; Logger := Logger w |}.

(** A call to the platform: it is recorded, and its failure becomes the
    caller's [err]. *)
Definition platformCall {A} (c : Call) (r : platformError + A) : M A := fun w =>
  match r with
  | inl e => (Err (platformErr e), recordCall c w)
  | inr a => (Ok a, recordCall c w)
  end.

(** [s[0]]: the first element, or the index-out-of-range panic. *)
Definition index0 {A} (s : list A) : M A := fun w =>
  match s with
  | a :: _ => (Ok a, w)
  | [] => (Panic "runtime error: index out of range", w)
  end.

Definition getHost : M HostClient := fun w => (Ok (host w), w).

Definition setLastCPUStats (c : cpu.CPUTimesStat) : M unit := fun w =>
  (Ok tt,
   {| host := {| ifaceName := ifaceName (host w); lastCPUStats := Some c |};
      calls := calls w; Logger := Logger w |}).

(** ** Package bslog *)

Module bslog.

Definition printf (level msg : string) (params : list string) (w : World) : World :=
  let msg := fmt.Sprintf "[%s] %s" [level; msg] in
  {| host := host w; calls := calls w;
     Logger := Logger w ++ [fmt.Sprintf msg params] |}.

Definition Warnf (msg : string) (params : list string) : World -> World :=
  printf "WARNING" msg params.

Definition Errorf (msg : string) (params : list string) : World -> World :=
  printf "ERROR" msg params.

(** [Debugf] reads the package variable [Debug]; it is passed in. *)
Definition Debugf (Debug : bool) (msg : string) (params : list string)
  : World -> World :=
  fun w => if Debug then printf "DEBUG" msg params w else w.

End bslog.

(** ** The process environment and package config *)

Definition Env := gmap string string.

(** [os.Getenv]: the value, empty when the variable is not present. *)
Definition Getenv (env : Env) (key : string) : string :=
  match env !! key with
  | Some v => v
  | None => ""
  end.

Module config.
(** Modelled from the spec: [config.StringEnvOrDefault] lives in a package of
    the repository that is not among the sources.  The spec gives the
    interface name as optional with a default: the variable's value when one
    is configured, the default otherwise. *)
Definition StringEnvOrDefault (env : Env) (defaultValue envVar : string) : string :=
  let val := Getenv env envVar in
  if String.eqb val "" then defaultValue else val.
End config.

(** ** HostClient *)

Definition NewHostClient (env : Env) : error + HostClient :=
  let proc := Getenv env "HOST_PROC" in
  if String.eqb proc "" then
    inl (errorString "HOST_PROC must be set to be able to send host metrics")
  else
    inr {| ifaceName :=
             config.StringEnvOrDefault env "eth0" "METRICS_NETWORK_INTERFACE";
           lastCPUStats := None |}.

Section Producers.

Variable p : Platform.

Definition getHostLoad : M stats :=
  loadStat <~ platformCall CallLoadAvg (load_LoadAvg p) ;;
  ret (list_to_map
         [("load1", float_of_float64 (load.Load1 loadStat));
          ("load5", float_of_float64 (load.Load5 loadStat));
          ("load15", float_of_float64 (load.Load15 loadStat))]).

Definition getHostMem : M stats :=
  memStat <~ platformCall CallVirtualMemory (mem_VirtualMemory p) ;;
  ret (list_to_map
         [("mem_total", float_of_uint64 (mem.Total memStat));
          ("mem_used", float_of_uint64 (mem.Used memStat));
          ("mem_free", float_of_uint64 (mem.Free memStat))]).

Definition getHostSwap : M stats :=
  swap <~ platformCall CallSwapMemory (mem_SwapMemory p) ;;
  ret (list_to_map
         [("swap_total", float_of_uint64 (mem.SwapTotal swap));
          ("swap_used", float_of_uint64 (mem.SwapUsed swap));
          ("swap_free", float_of_uint64 (mem.SwapFree swap))]).

Definition getHostFileSystemUsage : M stats :=
  diskStat <~ platformCall (CallDiskUsage "/") (disk_DiskUsage p "/") ;;
  ret (list_to_map
         [("disk_total", float_of_uint64 (disk.Total diskStat));
          ("disk_used", float_of_uint64 (disk.Used diskStat));
          ("disk_free", float_of_uint64 (disk.Free diskStat))]).

Definition getHostUptime : M stats :=
  uptime <~ platformCall CallUptime (host_Uptime p) ;;
  ret (list_to_map [("uptime", float_of_uint64 uptime)]).

Definition calculateCpuPercent (h : HostClient) (currentCpuStats : cpu.CPUTimesStat)
  : stats :=
  let '(user, sys, idle, stolen, wait) :=
    match lastCPUStats h with
    | Some last =>
        let deltaTotal := (cpu.Total currentCpuStats - cpu.Total last)%float in
        (((cpu.User currentCpuStats - cpu.User last) / deltaTotal)%float,
         ((cpu.System currentCpuStats - cpu.System last) / deltaTotal)%float,
         ((cpu.Idle currentCpuStats - cpu.Idle last) / deltaTotal)%float,
         ((cpu.Stolen currentCpuStats - cpu.Stolen last) / deltaTotal)%float,
         ((cpu.Iowait currentCpuStats - cpu.Iowait last) / deltaTotal)%float)
    | None => (0%float, 0%float, 0%float, 0%float, 0%float)
    end in
  list_to_map
    [("cpu_user", float_of_float64 user);
     ("cpu_sys", float_of_float64 sys);
     ("cpu_idle", float_of_float64 idle);
     ("cpu_stolen", float_of_float64 stolen);
     ("cpu_wait", float_of_float64 wait);
     ("cpu_busy", float_of_float64 (user + sys)%float)].

Definition getHostCpuTimes : M stats :=
  cpuStats <~ platformCall (CallCPUTimes false) (cpu_CPUTimes p false) ;;
  cpuStats0 <~ index0 cpuStats ;;
  h <~ getHost ;;
  let stats := calculateCpuPercent h cpuStats0 in
  _ <~ setLastCPUStats cpuStats0 ;;
  ret stats.

(** The [for ... range netStat] loop: the first interface with the wanted
    name ends it. *)
Fixpoint findInterface (name : string) (netStat : list net.NetIOCountersStat)
  : option net.NetIOCountersStat :=
  match netStat with
  | [] => None
  | netInterface :: rest =>
      if String.eqb (net.Name netInterface) name then Some netInterface
      else findInterface name rest
  end.

Definition getHostNetworkUsage : M stats :=
  netStat <~ platformCall (CallNetIOCounters true) (net_NetIOCounters p true) ;;
  h <~ getHost ;;
  match findInterface (ifaceName h) netStat with
  | Some netInterface =>
      ret (list_to_map
             [("netrx", float_of_uint64 (net.BytesRecv netInterface));
              ("nettx", float_of_uint64 (net.BytesSent netInterface))])
  | None => fun w => (Err (errInterfaceNotFound (ifaceName h)), w)
  end.

(** The body of [GetHostMetrics]'s loop over the remaining collectors, with
    the metrics appended so far. *)
Fixpoint runCollectors (collectors : list (M stats)) (metrics : list stats)
  : M (list stats) := fun w =>
  match collectors with
  | [] => (Ok metrics, w)
  | collector :: rest =>
      match collector w with
      | (Ok metric, w') => runCollectors rest (metrics ++ [metric]) w'
      | (Err err, w') =>
          match err with
          | errInterfaceNotFound _ =>
              runCollectors rest metrics
                (bslog.Warnf "Skipping network metrics: %s" [Error err] w')
          | _ => (Err err, w')
          end
      | (Panic msg, w') => (Panic msg, w')
      end
  end.

Definition collectors : list (M stats) :=
  [getHostLoad;
   getHostMem;
   getHostSwap;
   getHostFileSystemUsage;
   getHostUptime;
   getHostCpuTimes;
   getHostNetworkUsage].

Definition GetHostMetrics : M (list stats) :=
  runCollectors collectors [].

End Producers.


(** * Vocabulary of the statements *)

(** The values that are neither zero nor any other finite number. *)
Definition nonfinite (v : float64) : Prop :=
  v = nan \/ v = infinity \/ v = neg_infinity.

(** [deltaTotal] of two samples, as [calculateCpuPercent] computes it. *)
Definition deltaTotalOf (current last : cpu.CPUTimesStat) : float64 :=
  (cpu.Total current - cpu.Total last)%float.

(** The documented keys of each producer. *)
Definition loadKeys : list string := ["load1"; "load5"; "load15"].
Definition memKeys : list string := ["mem_total"; "mem_used"; "mem_free"].
Definition swapKeys : list string := ["swap_total"; "swap_used"; "swap_free"].
Definition diskKeys : list string := ["disk_total"; "disk_used"; "disk_free"].
Definition uptimeKeys : list string := ["uptime"].
Definition cpuKeys : list string :=
  ["cpu_user"; "cpu_sys"; "cpu_idle"; "cpu_stolen"; "cpu_wait"; "cpu_busy"].
Definition netKeys : list string := ["netrx"; "nettx"].

(** A mapping has exactly the keys of the list. *)
Definition hasKeys (m : stats) (keys : list string) : Prop :=
  dom m = (list_to_set keys : gset string).

(** The platform calls of a complete cycle, in the order of [collectors]. *)
Definition cycleCalls : list Call :=
  [CallLoadAvg; CallVirtualMemory; CallSwapMemory; CallDiskUsage "/";
   CallUptime; CallCPUTimes false; CallNetIOCounters true].

(** The line [GetHostMetrics] logs when it skips the network metrics. *)
Definition skipWarning (name : string) : string :=
  "[WARNING] Skipping network metrics: interface " ++ name ++ " not found".

(** The mapping the network producer builds from an interface. *)
Definition netStats (netInterface : net.NetIOCountersStat) : stats :=
  list_to_map
    [("netrx", float_of_uint64 (net.BytesRecv netInterface));
     ("nettx", float_of_uint64 (net.BytesSent netInterface))].

(** Every producer of the cycle with its documented keys. *)
Definition documentedKeys : list ((Platform -> M stats) * list string) :=
  [(getHostLoad, loadKeys);
   (getHostMem, memKeys);
   (getHostSwap, swapKeys);
   (getHostFileSystemUsage, diskKeys);
   (getHostUptime, uptimeKeys);
   (getHostCpuTimes, cpuKeys);
   (getHostNetworkUsage, netKeys)].

(** The error [NewHostClient] fails with, the spec's ConfigurationError. *)
Definition ConfigurationError : error :=
  errorString "HOST_PROC must be set to be able to send host metrics".

(** The seven producers run one after the other from [w], each in the world
    the one before it left: the first six return the mappings [ms], in that
    order, and the network producer ends with [r7] in the world [w7]. *)
Definition runsInOrder (p : Platform) (w : World) (ms : list stats)
    (r7 : result stats) (w7 : World) : Prop :=
  exists m1 w1 m2 w2 m3 w3 m4 w4 m5 w5 m6 w6,
    getHostLoad p w = (Ok m1, w1) /\
    getHostMem p w1 = (Ok m2, w2) /\
    getHostSwap p w2 = (Ok m3, w3) /\
    getHostFileSystemUsage p w3 = (Ok m4, w4) /\
    getHostUptime p w4 = (Ok m5, w5) /\
    getHostCpuTimes p w5 = (Ok m6, w6) /\
    getHostNetworkUsage p w6 = (r7, w7) /\
    ms = [m1; m2; m3; m4; m5; m6].

(** The world after the skip of the network metrics has been logged. *)
Definition skipLogged (name : string) (w : World) : World :=
  {| host := host w; calls := calls w;
     Logger := Logger w ++ [skipWarning name] |}.

(** The documented keys of the six producers that come before the network
    producer, in the order of the cycle. *)
Definition keysBeforeNetwork : list (list string) :=
  [loadKeys; memKeys; swapKeys; diskKeys; uptimeKeys; cpuKeys].

(** *** Sample data: the worked example of the CPU computation, and a
    platform on which every read succeeds *)

Definition samplePrevious : cpu.CPUTimesStat :=
  {| cpu.User := 100%float; cpu.System := 50%float; cpu.Idle := 800%float;
     cpu.Stolen := 0%float; cpu.Iowait := 50%float; cpu.Total := 1000%float |}.

Definition sampleCurrent : cpu.CPUTimesStat :=
  {| cpu.User := 150%float; cpu.System := 70%float; cpu.Idle := 1020%float;
     cpu.Stolen := 0%float; cpu.Iowait := 60%float; cpu.Total := 1300%float |}.

(** A sample with the total of [samplePrevious]: user time has grown,
    system time has shrunk, the rest is as before. *)
Definition sampleSameTotal : cpu.CPUTimesStat :=
  {| cpu.User := 150%float; cpu.System := 40%float; cpu.Idle := 800%float;
     cpu.Stolen := 0%float; cpu.Iowait := 50%float; cpu.Total := 1000%float |}.

Definition sampleLoad : load.LoadAvgStat :=
  {| load.Load1 := 0.5%float; load.Load5 := 0.25%float;
     load.Load15 := 0.125%float |}.

Definition sampleMem : mem.VirtualMemoryStat :=
  {| mem.Total := 8192%Z; mem.Used := 3072%Z; mem.Free := 5120%Z |}.

Definition sampleSwap : mem.SwapMemoryStat :=
  {| mem.SwapTotal := 2048%Z; mem.SwapUsed := 0%Z; mem.SwapFree := 2048%Z |}.

Definition sampleDisk : disk.DiskUsageStat :=
  {| disk.Total := 100000%Z; disk.Used := 40000%Z; disk.Free := 60000%Z |}.

Definition sampleLo : net.NetIOCountersStat :=
  {| net.Name := "lo"; net.BytesSent := 11%Z; net.BytesRecv := 12%Z |}.

Definition sampleEth0 : net.NetIOCountersStat :=
  {| net.Name := "eth0"; net.BytesSent := 21%Z; net.BytesRecv := 22%Z |}.

(** A second entry with the same name and other counters. *)
Definition sampleEth0' : net.NetIOCountersStat :=
  {| net.Name := "eth0"; net.BytesSent := 31%Z; net.BytesRecv := 32%Z |}.

Definition samplePlatform : Platform :=
  {| load_LoadAvg := inr sampleLoad;
     mem_VirtualMemory := inr sampleMem;
     mem_SwapMemory := inr sampleSwap;
     disk_DiskUsage := fun _ => inr sampleDisk;
     host_Uptime := inr 86400%Z;
     cpu_CPUTimes := fun _ => inr [sampleCurrent];
     net_NetIOCounters := fun _ => inr [sampleLo; sampleEth0; sampleEth0'] |}.

(** The same platform with a failing memory read. *)
Definition memFailure : platformError :=
  PlatformReadError "open meminfo: no such file".

Definition samplePlatformNoMem : Platform :=
  {| load_LoadAvg := inr sampleLoad;
     mem_VirtualMemory := inl memFailure;
     mem_SwapMemory := inr sampleSwap;
     disk_DiskUsage := fun _ => inr sampleDisk;
     host_Uptime := inr 86400%Z;
     cpu_CPUTimes := fun _ => inr [sampleCurrent];
     net_NetIOCounters := fun _ => inr [sampleLo; sampleEth0; sampleEth0'] |}.

Definition sampleEnv : Env := {[ "HOST_PROC" := "/prochost" ]}.

Definition sampleClient : HostClient :=
  {| ifaceName := "eth0"; lastCPUStats := None |}.

(** A collector that has seen [samplePrevious]. *)
Definition warmClient : HostClient :=
  {| ifaceName := "eth0"; lastCPUStats := Some samplePrevious |}.

(** A collector watching an interface the sample platform does not have. *)
Definition strayClient : HostClient :=
  {| ifaceName := "eth7"; lastCPUStats := Some samplePrevious |}.

Definition worldOf (h : HostClient) : World :=
  {| host := h; calls := []; Logger := [] |}.

(** * Vocabulary of the further properties *)

(** The error of a platform read, if it failed. *)
Definition readError {A} (r : platformError + A) : option platformError :=
  match r with
  | inl e => Some e
  | inr _ => None
  end.

(** For each platform call of a cycle, in the order of [cycleCalls], the
    error it returns, if any. *)
Definition cycleReadErrors (p : Platform) : list (option platformError) :=
  [readError (load_LoadAvg p);
   readError (mem_VirtualMemory p);
   readError (mem_SwapMemory p);
   readError (disk_DiskUsage p "/");
   readError (host_Uptime p);
   readError (cpu_CPUTimes p false);
   readError (net_NetIOCounters p true)].

(** The first read of the cycle that fails is the [k]-th, counting from 0,
    and it fails with [e]. *)
Definition firstFailure (p : Platform) (k : nat) (e : platformError) : Prop :=
  take k (cycleReadErrors p) = replicate k None /\
  cycleReadErrors p !! k = Some (Some e).

(** The sample [getHostCpuTimes] takes from the platform's CPU read: the
    first element of the slice, when the read gives one. *)
Definition cpuSample (p : Platform) : option cpu.CPUTimesStat :=
  match cpu_CPUTimes p false with
  | inr (current :: _) => Some current
  | _ => None
  end.

(** The sample platform with a failing network read. *)
Definition netFailure : platformError :=
  PlatformReadError "open net/dev: no such file".

Definition samplePlatformNoNet : Platform :=
  {| load_LoadAvg := inr sampleLoad;
     mem_VirtualMemory := inr sampleMem;
     mem_SwapMemory := inr sampleSwap;
     disk_DiskUsage := fun _ => inr sampleDisk;
     host_Uptime := inr 86400%Z;
     cpu_CPUTimes := fun _ => inr [sampleCurrent];
     net_NetIOCounters := fun _ => inl netFailure |}.

(** The sample platform with a CPU read that gives no error and no sample. *)
Definition samplePlatformNoCpu : Platform :=
  {| load_LoadAvg := inr sampleLoad;
     mem_VirtualMemory := inr sampleMem;
     mem_SwapMemory := inr sampleSwap;
     disk_DiskUsage := fun _ => inr sampleDisk;
     host_Uptime := inr 86400%Z;
     cpu_CPUTimes := fun _ => inr [];
     net_NetIOCounters := fun _ => inr [sampleLo; sampleEth0; sampleEth0'] |}.

(** The sample platform at an earlier time: its CPU read gives
    [samplePrevious]. *)
Definition samplePlatformEarlier : Platform :=
  {| load_LoadAvg := inr sampleLoad;
     mem_VirtualMemory := inr sampleMem;
     mem_SwapMemory := inr sampleSwap;
     disk_DiskUsage := fun _ => inr sampleDisk;
     host_Uptime := inr 86100%Z;
     cpu_CPUTimes := fun _ => inr [samplePrevious];
     net_NetIOCounters := fun _ => inr [sampleLo; sampleEth0; sampleEth0'] |}.

(** The number of verbs of a format whose every percent sign starts the verb
    [%s]; [None] for any other format.  On such a format, with as many
    arguments as it has verbs, [fmt.Sprintf] gives the string Go gives. *)
Fixpoint verbCount (format : string) : option nat :=
  match format with
  | EmptyString => Some 0
  | String c rest =>
      if Ascii.eqb c "%" then
        match rest with
        | String d rest' =>
            if Ascii.eqb d "s" then option_map S (verbCount rest') else None
        | EmptyString => None
        end
      else verbCount rest
  end.

(** Two key lists have a key in common. *)
Definition sharesKey (a b : list string) : bool :=
  existsb (fun x => existsb (String.eqb x) b) a.

(** * Properties *)

(** ** Facts on binary64 division by zero *)

Section FloatFacts.

Local Open Scope float_scope.

Lemma nonfinite_is_finite v : nonfinite v -> is_finite v = false.
Proof. intros [-> | [-> | ->]]; reflexivity. Qed.

Lemma is_zero_Prim2SF y : is_zero y = true -> exists s, Prim2SF y = S754_zero s.
Proof.
  unfold is_zero. rewrite FloatAxioms.eqb_spec.
  change (Prim2SF PrimFloat.zero) with (S754_zero false).
  destruct (Prim2SF y) as [s | s | | s m e]; try (destruct s); cbn;
    try discriminate; eauto.
Qed.

Lemma div_by_zero_nonfinite x y : is_zero y = true -> nonfinite (x / y).
Proof.
  intros [s Hy]%is_zero_Prim2SF.
  pose proof (div_spec x y) as Hd. rewrite Hy in Hd.
  rewrite <- (SF2Prim_Prim2SF (x / y)), Hd. unfold nonfinite.
  destruct (Prim2SF x) as [sx | sx | | sx mx ex]; try (destruct sx);
    destruct s; cbn; auto.
Qed.

Lemma div_by_nan x : x / nan = nan.
Proof.
  rewrite <- (SF2Prim_Prim2SF (x / nan)), div_spec.
  change (Prim2SF nan) with S754_nan.
  destruct (Prim2SF x) as [sx | sx | | sx mx ex]; reflexivity.
Qed.

(** A float minus itself is a zero, or NaN when it is not finite. *)
Lemma sub_self x : is_zero (x - x) = true \/ x - x = nan.
Proof.
  pose proof (sub_spec x x) as Hs.
  rewrite <- (SF2Prim_Prim2SF (x - x)), Hs. unfold SF64sub, SFsub.
  destruct (Prim2SF x) as [s | s | | s m e].
  - left. destruct s; reflexivity.
  - right. destruct s; reflexivity.
  - right. reflexivity.
  - left. rewrite Z.sub_diag. reflexivity.
Qed.

(** A quotient by the difference of two equal floats, or by a zero. *)
Lemma div_by_delta_nonfinite x t t' :
  t = t' \/ is_zero (t - t') = true -> nonfinite (x / (t - t')).
Proof.
  intros [<- | Hz]; [| apply div_by_zero_nonfinite, Hz].
  destruct (sub_self t) as [Hz | ->]; [apply div_by_zero_nonfinite, Hz |].
  rewrite div_by_nan. left. reflexivity.
Qed.

Lemma add_nonfinite u v : nonfinite u -> nonfinite v -> nonfinite (u + v).
Proof.
  unfold nonfinite.
  intros [-> | [-> | ->]] [-> | [-> | ->]]; vm_compute; auto.
Qed.

End FloatFacts.

(** ** The CPU utilisation computation *)

Section CpuPercent.

Local Open Scope float_scope.

(** The six entries of the mapping, one by one. *)
Lemma calculateCpuPercent_some h last current :
  lastCPUStats h = Some last ->
  let m := calculateCpuPercent h current in
  let d := deltaTotalOf current last in
  m !! "cpu_user" = Some ((cpu.User current - cpu.User last) / d) /\
  m !! "cpu_sys" = Some ((cpu.System current - cpu.System last) / d) /\
  m !! "cpu_idle" = Some ((cpu.Idle current - cpu.Idle last) / d) /\
  m !! "cpu_stolen" = Some ((cpu.Stolen current - cpu.Stolen last) / d) /\
  m !! "cpu_wait" = Some ((cpu.Iowait current - cpu.Iowait last) / d) /\
  m !! "cpu_busy" = Some ((cpu.User current - cpu.User last) / d
                          + (cpu.System current - cpu.System last) / d).
Proof.
  intros Hlast. unfold calculateCpuPercent. rewrite Hlast.
  repeat split; reflexivity.
Qed.

Lemma calculateCpuPercent_none h current :
  lastCPUStats h = None ->
  Forall (fun k => calculateCpuPercent h current !! k = Some 0) cpuKeys.
Proof.
  intros Hlast. unfold calculateCpuPercent. rewrite Hlast.
  repeat constructor.
Qed.

(** One successful run of the CPU producer. *)
Lemma getHostCpuTimes_ok p w current rest :
  cpu_CPUTimes p false = inr (current :: rest) ->
  getHostCpuTimes p w =
    (Ok (calculateCpuPercent (host w) current),
     {| host := {| ifaceName := ifaceName (host w);
                   lastCPUStats := Some current |};
        calls := calls w ++ [CallCPUTimes false];
        Logger := Logger w |}).
Proof.
  intros Hread. unfold getHostCpuTimes, bind, platformCall. rewrite Hread.
  reflexivity.
Qed.

End CpuPercent.

Section CpuClaims.

Local Open Scope float_scope.

(** ** Claims on the CPU producer *)

(** C1, as the claim states it, fails: with a prior sample equal to the
    current one, [deltaTotal] is zero and every output is NaN, which is not
    zero (neither [0] nor [-0]). *)
Lemma calculateCpuPercent_zero_delta_not_zero :
  let h := warmClient in
  lastCPUStats h = Some samplePrevious /\
  cpu.Total samplePrevious = cpu.Total samplePrevious /\
  is_zero (deltaTotalOf samplePrevious samplePrevious) = true /\
  Forall (fun k => calculateCpuPercent h samplePrevious !! k = Some nan) cpuKeys /\
  ~ Forall (fun k => exists v, calculateCpuPercent h samplePrevious !! k = Some v
                               /\ is_zero v = true) cpuKeys.
Proof.
  cbv zeta. split; [reflexivity |]. split; [reflexivity |].
  split; [reflexivity |]. split.
  - repeat constructor.
  - intros Hall. apply Forall_cons_1 in Hall as [[v [Hv Hz]] _].
    vm_compute in Hv. injection Hv as <-. discriminate Hz.
Qed.

(** C1 (amended): with a prior sample present, when the two totals are
    equal, or more generally [deltaTotal] is a zero, [calculateCpuPercent]
    returns under each of the five base keys the quotient of the category's
    delta by that [deltaTotal] and under cpu_busy the sum of the cpu_user and
    cpu_sys quotients; each of the six values is NaN or an infinity, never
    zero or any other finite number. *)
Theorem calculateCpuPercent_zero_delta h last current :
  lastCPUStats h = Some last ->
  cpu.Total current = cpu.Total last \/
    is_zero (deltaTotalOf current last) = true ->
  let m := calculateCpuPercent h current in
  let d := deltaTotalOf current last in
  (m !! "cpu_user" = Some ((cpu.User current - cpu.User last) / d) /\
   m !! "cpu_sys" = Some ((cpu.System current - cpu.System last) / d) /\
   m !! "cpu_idle" = Some ((cpu.Idle current - cpu.Idle last) / d) /\
   m !! "cpu_stolen" = Some ((cpu.Stolen current - cpu.Stolen last) / d) /\
   m !! "cpu_wait" = Some ((cpu.Iowait current - cpu.Iowait last) / d) /\
   m !! "cpu_busy" = Some ((cpu.User current - cpu.User last) / d
                           + (cpu.System current - cpu.System last) / d)) /\
  Forall (fun k => exists v, m !! k = Some v
                             /\ nonfinite v /\ is_finite v = false) cpuKeys.
Proof.
  intros Hlast Hzero m d.
  pose proof (calculateCpuPercent_some h last current Hlast) as Hsome.
  split; [exact Hsome |].
  destruct Hsome as (Hu & Hs & Hi & Hst & Hw & Hb).
  assert (Hq : forall x, nonfinite (x / deltaTotalOf current last))
    by (intros x; apply div_by_delta_nonfinite, Hzero).
  repeat constructor; eexists; (split; [eassumption |]);
    (split; [| apply nonfinite_is_finite]);
    first [apply Hq | apply add_nonfinite; apply Hq].
Qed.

Lemma calculateCpuPercent_zero_delta_witness :
  let m := calculateCpuPercent warmClient sampleSameTotal in
  (m !! "cpu_user" = Some infinity /\
   m !! "cpu_sys" = Some neg_infinity /\
   m !! "cpu_idle" = Some nan /\
   m !! "cpu_stolen" = Some nan /\
   m !! "cpu_wait" = Some nan /\
   m !! "cpu_busy" = Some nan) /\
  Forall (fun k => exists v, m !! k = Some v
                             /\ nonfinite v /\ is_finite v = false) cpuKeys.
Proof.
  apply (calculateCpuPercent_zero_delta warmClient samplePrevious sampleSameTotal);
    [reflexivity | left; reflexivity].
Defined.

(** C2: with a prior sample present and [deltaTotal] not zero, each of the
    five base values is the category's delta divided by [deltaTotal] and
    cpu_busy is cpu_user plus cpu_sys; on the worked example the values are
    50/300, 20/300, 220/300, 0, 10/300 and 70/300. *)
Theorem calculateCpuPercent_delta :
  (forall h last current,
      lastCPUStats h = Some last ->
      is_zero (deltaTotalOf current last) = false ->
      let m := calculateCpuPercent h current in
      let d := deltaTotalOf current last in
      exists user sys,
        m !! "cpu_user" = Some user /\ m !! "cpu_sys" = Some sys /\
        user = (cpu.User current - cpu.User last) / d /\
        sys = (cpu.System current - cpu.System last) / d /\
        m !! "cpu_idle" = Some ((cpu.Idle current - cpu.Idle last) / d) /\
        m !! "cpu_stolen" = Some ((cpu.Stolen current - cpu.Stolen last) / d) /\
        m !! "cpu_wait" = Some ((cpu.Iowait current - cpu.Iowait last) / d) /\
        m !! "cpu_busy" = Some (user + sys)) /\
  (let m := calculateCpuPercent warmClient sampleCurrent in
   deltaTotalOf sampleCurrent samplePrevious = 300 /\
   m !! "cpu_user" = Some (50 / 300) /\
   m !! "cpu_sys" = Some (20 / 300) /\
   m !! "cpu_idle" = Some (220 / 300) /\
   m !! "cpu_stolen" = Some 0 /\
   m !! "cpu_wait" = Some (10 / 300) /\
   m !! "cpu_busy" = Some (70 / 300)).
Proof.
  split.
  - intros h last current Hlast _ m d.
    destruct (calculateCpuPercent_some h last current Hlast)
      as (Hu & Hs & Hi & Hst & Hw & Hb).
    do 2 eexists. repeat split; eassumption.
  - cbv zeta. repeat split; vm_compute; reflexivity.
Qed.

Lemma calculateCpuPercent_delta_witness :
  let h := warmClient in
  let m := calculateCpuPercent h sampleCurrent in
  exists user sys,
    m !! "cpu_user" = Some user /\ m !! "cpu_sys" = Some sys /\
    user = (150 - 100) / deltaTotalOf sampleCurrent samplePrevious /\
    sys = (70 - 50) / deltaTotalOf sampleCurrent samplePrevious /\
    m !! "cpu_idle" = Some ((1020 - 800) / deltaTotalOf sampleCurrent samplePrevious) /\
    m !! "cpu_stolen" = Some ((0 - 0) / deltaTotalOf sampleCurrent samplePrevious) /\
    m !! "cpu_wait" = Some ((60 - 50) / deltaTotalOf sampleCurrent samplePrevious) /\
    m !! "cpu_busy" = Some (user + sys).
Proof.
  apply (proj1 calculateCpuPercent_delta warmClient samplePrevious sampleCurrent);
    reflexivity.
Defined.

(** C3: on a collector as [NewHostClient] builds it, the first run of the
    CPU producer returns a mapping whose six keys are all exactly [0],
    whatever the sample just read holds. *)
Theorem getHostCpuTimes_cold_start env h p w current rest :
  NewHostClient env = inr h ->
  host w = h ->
  cpu_CPUTimes p false = inr (current :: rest) ->
  exists m w',
    getHostCpuTimes p w = (Ok m, w') /\
    hasKeys m cpuKeys /\
    Forall (fun k => m !! k = Some 0) cpuKeys.
Proof.
  intros Hnew Hw Hread.
  assert (Hnone : lastCPUStats (host w) = None).
  { rewrite Hw. unfold NewHostClient in Hnew.
    destruct (String.eqb _ _); [discriminate |]. injection Hnew as <-.
    reflexivity. }
  rewrite (getHostCpuTimes_ok p w current rest Hread).
  do 2 eexists. split; [reflexivity |]. split.
  - unfold hasKeys, calculateCpuPercent. rewrite Hnone. cbv beta iota zeta.
    rewrite dom_list_to_map_L. reflexivity.
  - apply calculateCpuPercent_none, Hnone.
Qed.

Lemma getHostCpuTimes_cold_start_witness :
  exists m w',
    getHostCpuTimes samplePlatform (worldOf sampleClient) = (Ok m, w') /\
    hasKeys m cpuKeys /\
    Forall (fun k => m !! k = Some 0) cpuKeys.
Proof.
  apply (getHostCpuTimes_cold_start sampleEnv sampleClient samplePlatform
           (worldOf sampleClient) sampleCurrent []); reflexivity.
Defined.

(** C4: a run of the CPU producer whose platform read yields a sample
    leaves exactly that sample in [lastCPUStats], whatever was retained
    before and whatever the delta was. *)
Theorem getHostCpuTimes_retains_current p w current rest :
  cpu_CPUTimes p false = inr (current :: rest) ->
  exists m w',
    getHostCpuTimes p w = (Ok m, w') /\
    lastCPUStats (host w') = Some current /\
    ifaceName (host w') = ifaceName (host w).
Proof.
  intros Hread. rewrite (getHostCpuTimes_ok p w current rest Hread).
  do 2 eexists. repeat split.
Qed.

Lemma getHostCpuTimes_retains_current_witness :
  exists m w',
    getHostCpuTimes samplePlatform (worldOf warmClient) = (Ok m, w') /\
    lastCPUStats (host w') = Some sampleCurrent /\
    ifaceName (host w') = ifaceName (host (worldOf warmClient)).
Proof.
  apply (getHostCpuTimes_retains_current samplePlatform (worldOf warmClient)
           sampleCurrent []); reflexivity.
Defined.

End CpuClaims.

(** ** The single-shot producers *)

Section ProducerFacts.

Variable p : Platform.

(** Binding a platform call to a continuation that only builds a mapping:
    the shape of the five stateless producers. *)
Lemma bind_platformCall_ret {A} c (r : platformError + A) (f : A -> stats) w :
  bind (platformCall c r) (fun a => ret (f a)) w =
    (match r with
     | inl e => Err (platformErr e)
     | inr a => Ok (f a)
     end, recordCall c w).
Proof. unfold bind, platformCall, ret. destruct r; reflexivity. Qed.

Lemma hasKeys_list_to_map (l : list (string * float)) :
  hasKeys (list_to_map l) (l.*1).
Proof. unfold hasKeys. apply dom_list_to_map_L. Qed.

(** The two ways such a producer can end. *)
Lemma simple_producer_cases {A} c (r : platformError + A) (f : A -> stats) keys w :
  (forall a, hasKeys (f a) keys) ->
  (exists e, r = inl e /\
     bind (platformCall c r) (fun a => ret (f a)) w
       = (Err (platformErr e), recordCall c w)) \/
  (exists a m, r = inr a /\
     bind (platformCall c r) (fun a => ret (f a)) w = (Ok m, recordCall c w) /\
     hasKeys m keys).
Proof.
  intros Hkeys. rewrite bind_platformCall_ret. destruct r as [e | a].
  - left. exists e. split; reflexivity.
  - right. exists a, (f a). repeat split. apply Hkeys.
Qed.

Lemma getHostLoad_cases w :
  (exists e, load_LoadAvg p = inl e /\
     getHostLoad p w = (Err (platformErr e), recordCall CallLoadAvg w)) \/
  (exists loadStat m, load_LoadAvg p = inr loadStat /\
     getHostLoad p w = (Ok m, recordCall CallLoadAvg w) /\ hasKeys m loadKeys).
Proof.
  apply simple_producer_cases. intros a. apply hasKeys_list_to_map.
Qed.

Lemma getHostMem_cases w :
  (exists e, mem_VirtualMemory p = inl e /\
     getHostMem p w = (Err (platformErr e), recordCall CallVirtualMemory w)) \/
  (exists memStat m, mem_VirtualMemory p = inr memStat /\
     getHostMem p w = (Ok m, recordCall CallVirtualMemory w) /\ hasKeys m memKeys).
Proof.
  apply simple_producer_cases. intros a. apply hasKeys_list_to_map.
Qed.

Lemma getHostSwap_cases w :
  (exists e, mem_SwapMemory p = inl e /\
     getHostSwap p w = (Err (platformErr e), recordCall CallSwapMemory w)) \/
  (exists swap m, mem_SwapMemory p = inr swap /\
     getHostSwap p w = (Ok m, recordCall CallSwapMemory w) /\ hasKeys m swapKeys).
Proof.
  apply simple_producer_cases. intros a. apply hasKeys_list_to_map.
Qed.

Lemma getHostFileSystemUsage_cases w :
  (exists e, disk_DiskUsage p "/" = inl e /\
     getHostFileSystemUsage p w
       = (Err (platformErr e), recordCall (CallDiskUsage "/") w)) \/
  (exists diskStat m, disk_DiskUsage p "/" = inr diskStat /\
     getHostFileSystemUsage p w = (Ok m, recordCall (CallDiskUsage "/") w) /\
     hasKeys m diskKeys).
Proof.
  apply simple_producer_cases. intros a. apply hasKeys_list_to_map.
Qed.

Lemma getHostUptime_cases w :
  (exists e, host_Uptime p = inl e /\
     getHostUptime p w = (Err (platformErr e), recordCall CallUptime w)) \/
  (exists uptime m, host_Uptime p = inr uptime /\
     getHostUptime p w = (Ok m, recordCall CallUptime w) /\ hasKeys m uptimeKeys).
Proof.
  apply simple_producer_cases. intros a. apply hasKeys_list_to_map.
Qed.

End ProducerFacts.

(** ** The CPU and network producers, by what the platform returns *)

Section StatefulProducers.

Variable p : Platform.

Lemma getHostCpuTimes_eq w :
  getHostCpuTimes p w =
    match cpu_CPUTimes p false with
    | inl e => (Err (platformErr e), recordCall (CallCPUTimes false) w)
    | inr [] => (Panic "runtime error: index out of range",
                 recordCall (CallCPUTimes false) w)
    | inr (current :: _) =>
        (Ok (calculateCpuPercent (host w) current),
         {| host := {| ifaceName := ifaceName (host w);
                       lastCPUStats := Some current |};
            calls := calls w ++ [CallCPUTimes false];
            Logger := Logger w |})
    end.
Proof.
  unfold getHostCpuTimes, bind, platformCall.
  destruct (cpu_CPUTimes p false) as [e | [| current rest]]; reflexivity.
Qed.

Lemma getHostNetworkUsage_eq w :
  getHostNetworkUsage p w =
    (match net_NetIOCounters p true with
     | inl e => Err (platformErr e)
     | inr netStat =>
         match findInterface (ifaceName (host w)) netStat with
         | Some netInterface => Ok (netStats netInterface)
         | None => Err (errInterfaceNotFound (ifaceName (host w)))
         end
     end, recordCall (CallNetIOCounters true) w).
Proof.
  unfold getHostNetworkUsage, bind, platformCall.
  destruct (net_NetIOCounters p true) as [e | netStat]; [reflexivity |].
  cbn [getHost recordCall host].
  destruct (findInterface (ifaceName (host w)) netStat); reflexivity.
Qed.

(** A read that reports no error and no sample makes [cpuStats[0]] panic;
    nothing is retained then. *)
Lemma getHostCpuTimes_empty w :
  cpu_CPUTimes p false = inr [] ->
  getHostCpuTimes p w =
    (Panic "runtime error: index out of range",
     recordCall (CallCPUTimes false) w).
Proof. intros H. rewrite getHostCpuTimes_eq, H. reflexivity. Qed.

(** The loop over the interfaces stops at the first one with the name. *)
Lemma findInterface_first name pre netInterface post :
  Forall (fun i => net.Name i <> name) pre ->
  net.Name netInterface = name ->
  findInterface name (pre ++ netInterface :: post)%list = Some netInterface.
Proof.
  intros Hpre Hname. induction Hpre as [| i pre Hi _ IH]; cbn [app findInterface].
  - rewrite (proj2 (String.eqb_eq _ _) Hname). reflexivity.
  - rewrite (proj2 (String.eqb_neq _ _) Hi). exact IH.
Qed.

Lemma findInterface_None name netStat :
  findInterface name netStat = None <->
  Forall (fun i => net.Name i <> name) netStat.
Proof.
  induction netStat as [| i netStat IH]; cbn [findInterface].
  - split; [constructor | reflexivity].
  - destruct (String.eqb (net.Name i) name) eqn:E.
    + apply String.eqb_eq in E. split; [discriminate |].
      intros H. apply Forall_cons_1 in H as [Hi _]. contradiction.
    + apply String.eqb_neq in E. rewrite IH. split.
      * intros H. constructor; assumption.
      * intros H. apply Forall_cons_1 in H as [_ H]. exact H.
Qed.

Lemma findInterface_Some name netStat netInterface :
  findInterface name netStat = Some netInterface ->
  exists pre post,
    netStat = (pre ++ netInterface :: post)%list /\
    Forall (fun i => net.Name i <> name) pre /\
    net.Name netInterface = name.
Proof.
  induction netStat as [| i netStat IH]; cbn [findInterface]; [discriminate |].
  destruct (String.eqb (net.Name i) name) eqn:E.
  - intros [= <-]. apply String.eqb_eq in E.
    exists [], netStat. repeat split; [constructor | exact E].
  - intros H. apply String.eqb_neq in E.
    destruct (IH H) as (pre & post & -> & Hpre & Hname).
    exists (i :: pre), post. repeat split; [constructor; assumption | exact Hname].
Qed.

Lemma calculateCpuPercent_keys h current :
  hasKeys (calculateCpuPercent h current) cpuKeys.
Proof.
  unfold calculateCpuPercent.
  destruct (lastCPUStats h); apply hasKeys_list_to_map.
Qed.

Lemma netStats_keys netInterface : hasKeys (netStats netInterface) netKeys.
Proof. apply hasKeys_list_to_map. Qed.

(** A mapping with a documented key set holds exactly those keys. *)
Lemma hasKeys_lookup m keys k :
  hasKeys m keys -> (is_Some (m !! k) <-> k ∈ keys).
Proof.
  unfold hasKeys. intros H. rewrite <- elem_of_dom, H. apply elem_of_list_to_set.
Qed.

Lemma hasKeys_lookup_None m keys k :
  hasKeys m keys -> k ∉ keys -> m !! k = None.
Proof.
  intros H Hk. apply eq_None_not_Some. rewrite (hasKeys_lookup m keys k H).
  exact Hk.
Qed.

Lemma hasKeys_nonempty m keys k :
  hasKeys m keys -> k ∈ keys -> m <> ∅.
Proof.
  intros H Hk ->. apply (hasKeys_lookup ∅ keys k H) in Hk.
  rewrite lookup_empty in Hk. destruct Hk as [? ?]. discriminate.
Qed.

End StatefulProducers.

(** ** The loop of GetHostMetrics *)

Section Loop.

(** The loop, one collector at a time. *)
Lemma runCollectors_cons c cs ms w :
  runCollectors (c :: cs) ms w =
    match c w with
    | (Ok metric, w') => runCollectors cs (ms ++ [metric]) w'
    | (Err err, w') =>
        match err with
        | errInterfaceNotFound _ =>
            runCollectors cs ms
              (bslog.Warnf "Skipping network metrics: %s" [Error err] w')
        | _ => (Err err, w')
        end
    | (Panic msg, w') => (Panic msg, w')
    end.
Proof. reflexivity. Qed.

Lemma runCollectors_app pre post ms w :
  runCollectors (pre ++ post) ms w =
    match runCollectors pre ms w with
    | (Ok ms', w') => runCollectors post ms' w'
    | other => other
    end.
Proof.
  revert ms w. induction pre as [| c pre IH]; intros ms w; [reflexivity |].
  cbn [app]. rewrite !runCollectors_cons.
  destruct (c w) as [[metric | err | msg] w']; [apply IH | | reflexivity].
  destruct err; try reflexivity. apply IH.
Qed.

Lemma append_empty_r (s : string) : s ++ "" = s.
Proof.
  induction s as [| c s IH]; [reflexivity |].
  change (String c s ++ "") with (String c (s ++ "")). rewrite IH. reflexivity.
Qed.

Lemma Sprintf_skip arg :
  fmt.Sprintf "[WARNING] Skipping network metrics: %s" [arg] =
    "[WARNING] Skipping network metrics: " ++ arg.
Proof.
  transitivity ("[WARNING] Skipping network metrics: " ++ (arg ++ ""));
    [reflexivity | rewrite append_empty_r; reflexivity].
Qed.

(** What the skip writes to the log. *)
Lemma Warnf_skip name w :
  bslog.Warnf "Skipping network metrics: %s" [Error (errInterfaceNotFound name)] w =
    {| host := host w; calls := calls w;
       Logger := Logger w ++ [skipWarning name] |}.
Proof.
  unfold bslog.Warnf, bslog.printf, skipWarning. f_equal. f_equal.
  change (fmt.Sprintf "[%s] %s" ["WARNING"; "Skipping network metrics: %s"])
    with "[WARNING] Skipping network metrics: %s".
  rewrite Sprintf_skip. reflexivity.
Qed.

End Loop.

(** ** Claims on the producers *)

Section ProducerClaims.

(** C10: the network producer returns the counters of the first interface
    of the platform's list that has the configured name, also when later
    ones have it too, and it fails with [errInterfaceNotFound] exactly when
    the read succeeds and no interface of the list has the name. *)
Theorem getHostNetworkUsage_first_match p w :
  (forall pre netInterface post,
      net_NetIOCounters p true = inr (pre ++ netInterface :: post)%list ->
      Forall (fun i => net.Name i <> ifaceName (host w)) pre ->
      net.Name netInterface = ifaceName (host w) ->
      exists m,
        getHostNetworkUsage p w = (Ok m, recordCall (CallNetIOCounters true) w) /\
        hasKeys m netKeys /\
        m !! "netrx" = Some (float_of_uint64 (net.BytesRecv netInterface)) /\
        m !! "nettx" = Some (float_of_uint64 (net.BytesSent netInterface))) /\
  (forall name w',
      getHostNetworkUsage p w = (Err (errInterfaceNotFound name), w') <->
      name = ifaceName (host w) /\
      w' = recordCall (CallNetIOCounters true) w /\
      exists netStat,
        net_NetIOCounters p true = inr netStat /\
        Forall (fun i => net.Name i <> ifaceName (host w)) netStat).
Proof.
  split.
  - intros pre netInterface post Hread Hpre Hname.
    exists (netStats netInterface).
    rewrite getHostNetworkUsage_eq, Hread.
    rewrite (findInterface_first _ _ _ _ Hpre Hname).
    repeat split.
  - intros name w'. rewrite getHostNetworkUsage_eq. split.
    + destruct (net_NetIOCounters p true) as [e | netStat]; [discriminate |].
      destruct (findInterface (ifaceName (host w)) netStat) eqn:Hfind;
        [discriminate |].
      intros [= <- <-]. repeat split. exists netStat. split; [reflexivity |].
      apply findInterface_None, Hfind.
    + intros (-> & -> & netStat & -> & Hnone).
      rewrite (proj2 (findInterface_None _ _) Hnone). reflexivity.
Qed.

Lemma getHostNetworkUsage_first_match_witness :
  exists m,
    getHostNetworkUsage samplePlatform (worldOf sampleClient)
      = (Ok m, recordCall (CallNetIOCounters true) (worldOf sampleClient)) /\
    hasKeys m netKeys /\
    m !! "netrx" = Some (float_of_uint64 22%Z) /\
    m !! "nettx" = Some (float_of_uint64 21%Z).
Proof.
  apply (proj1 (getHostNetworkUsage_first_match samplePlatform (worldOf sampleClient))
           [sampleLo] sampleEth0 [sampleEth0']).
  - reflexivity.
  - repeat constructor. discriminate.
  - reflexivity.
Defined.

(** C9: whenever a producer of the cycle returns a mapping, in whatever
    state the collector is, the keys of the mapping are exactly the
    documented ones of that producer. *)
Theorem producers_key_sets producer keys p w m w' :
  In (producer, keys) documentedKeys ->
  producer p w = (Ok m, w') ->
  hasKeys m keys.
Proof.
  intros Hin Hrun. cbn [In documentedKeys] in Hin.
  destruct Hin as [[= <- <-] | [[= <- <-] | [[= <- <-] | [[= <- <-] |
                  [[= <- <-] | [[= <- <-] | [[= <- <-] | []]]]]]]].
  - destruct (getHostLoad_cases p w) as [(e & _ & E) | (a & m' & _ & E & K)];
      rewrite E in Hrun; [discriminate | injection Hrun as <- _; exact K].
  - destruct (getHostMem_cases p w) as [(e & _ & E) | (a & m' & _ & E & K)];
      rewrite E in Hrun; [discriminate | injection Hrun as <- _; exact K].
  - destruct (getHostSwap_cases p w) as [(e & _ & E) | (a & m' & _ & E & K)];
      rewrite E in Hrun; [discriminate | injection Hrun as <- _; exact K].
  - destruct (getHostFileSystemUsage_cases p w)
      as [(e & _ & E) | (a & m' & _ & E & K)];
      rewrite E in Hrun; [discriminate | injection Hrun as <- _; exact K].
  - destruct (getHostUptime_cases p w) as [(e & _ & E) | (a & m' & _ & E & K)];
      rewrite E in Hrun; [discriminate | injection Hrun as <- _; exact K].
  - rewrite getHostCpuTimes_eq in Hrun.
    destruct (cpu_CPUTimes p false) as [e | [| current rest]];
      [discriminate | discriminate |].
    injection Hrun as <- _. apply calculateCpuPercent_keys.
  - rewrite getHostNetworkUsage_eq in Hrun.
    destruct (net_NetIOCounters p true) as [e | netStat]; [discriminate |].
    destruct (findInterface (ifaceName (host w)) netStat); [| discriminate].
    injection Hrun as <- _. apply netStats_keys.
Qed.

Lemma producers_key_sets_witness :
  Forall (fun pk : (Platform -> M stats) * list string =>
            exists m w',
              fst pk samplePlatform (worldOf warmClient) = (Ok m, w') /\
              hasKeys m (snd pk)) documentedKeys.
Proof.
  unfold documentedKeys.
  repeat (apply Forall_cons_2; [cbv beta; cbn [fst snd] |]);
    [.. | apply Forall_nil_2].
  - do 2 eexists. split; [reflexivity |].
    eapply (producers_key_sets getHostLoad loadKeys samplePlatform
              (worldOf warmClient));
      [cbn [In documentedKeys]; auto 10 | reflexivity].
  - do 2 eexists. split; [reflexivity |].
    eapply (producers_key_sets getHostMem memKeys samplePlatform (worldOf warmClient));
      [cbn [In documentedKeys]; auto 10 | reflexivity].
  - do 2 eexists. split; [reflexivity |].
    eapply (producers_key_sets getHostSwap swapKeys samplePlatform
              (worldOf warmClient));
      [cbn [In documentedKeys]; auto 10 | reflexivity].
  - do 2 eexists. split; [reflexivity |].
    eapply (producers_key_sets getHostFileSystemUsage diskKeys samplePlatform
              (worldOf warmClient));
      [cbn [In documentedKeys]; auto 10 | reflexivity].
  - do 2 eexists. split; [reflexivity |].
    eapply (producers_key_sets getHostUptime uptimeKeys samplePlatform
              (worldOf warmClient));
      [cbn [In documentedKeys]; auto 10 | reflexivity].
  - exists (calculateCpuPercent warmClient sampleCurrent),
      (snd (getHostCpuTimes samplePlatform (worldOf warmClient))).
    split; [reflexivity |].
    apply (producers_key_sets getHostCpuTimes cpuKeys samplePlatform
             (worldOf warmClient) _
             (snd (getHostCpuTimes samplePlatform (worldOf warmClient))));
      [cbn [In documentedKeys]; auto 10 | reflexivity].
  - exists (netStats sampleEth0),
      (snd (getHostNetworkUsage samplePlatform (worldOf warmClient))).
    split; [reflexivity |].
    apply (producers_key_sets getHostNetworkUsage netKeys samplePlatform
             (worldOf warmClient) _
             (snd (getHostNetworkUsage samplePlatform (worldOf warmClient))));
      [cbn [In documentedKeys]; auto 10 | reflexivity].
Defined.

(** C7: without HOST_PROC (unset or empty) [NewHostClient] fails with the
    configuration error and no collector; with it, a collector is built from
    the environment alone, without a CPU sample, watching the configured
    interface, or eth0 when none is configured. *)
Theorem NewHostClient_precondition env :
  (env !! "HOST_PROC" = None \/ env !! "HOST_PROC" = Some "" ->
   NewHostClient env = inl ConfigurationError) /\
  (forall proc,
      env !! "HOST_PROC" = Some proc -> proc <> "" ->
      exists h,
        NewHostClient env = inr h /\
        lastCPUStats h = None /\
        (env !! "METRICS_NETWORK_INTERFACE" = None -> ifaceName h = "eth0") /\
        (forall name,
            env !! "METRICS_NETWORK_INTERFACE" = Some name -> name <> "" ->
            ifaceName h = name)).
Proof.
  split.
  - intros H. unfold NewHostClient, Getenv.
    destruct H as [-> | ->]; reflexivity.
  - intros proc Hproc Hne. unfold NewHostClient, Getenv. rewrite Hproc.
    rewrite (proj2 (String.eqb_neq _ _) Hne).
    eexists. split; [reflexivity |]. split; [reflexivity |].
    cbn [ifaceName]. unfold config.StringEnvOrDefault, Getenv. split.
    + intros ->. reflexivity.
    + intros name -> Hname. rewrite (proj2 (String.eqb_neq _ _) Hname).
      reflexivity.
Qed.

Lemma NewHostClient_precondition_witness :
  NewHostClient ∅ = inl ConfigurationError /\
  exists h,
    NewHostClient sampleEnv = inr h /\
    lastCPUStats h = None /\
    (sampleEnv !! "METRICS_NETWORK_INTERFACE" = None -> ifaceName h = "eth0") /\
    (forall name,
        sampleEnv !! "METRICS_NETWORK_INTERFACE" = Some name -> name <> "" ->
        ifaceName h = name).
Proof.
  split.
  - apply (proj1 (NewHostClient_precondition ∅)). left. reflexivity.
  - apply (proj2 (NewHostClient_precondition sampleEnv) "/prochost").
    + reflexivity.
    + discriminate.
Defined.

End ProducerClaims.

(** ** The collection cycle *)

Section Cycle.

Variable p : Platform.



(** Where the seven producers have run in order, the cycle ends as the
    network producer's result decides. *)
Lemma GetHostMetrics_runsInOrder w ms r7 w7 :
  runsInOrder p w ms r7 w7 ->
  GetHostMetrics p w =
    match r7 with
    | Ok m7 => (Ok (ms ++ [m7])%list, w7)
    | Err (errInterfaceNotFound name) => (Ok ms, skipLogged name w7)
    | Err e => (Err e, w7)
    | Panic msg => (Panic msg, w7)
    end.
Proof.
  intros (m1 & w1 & m2 & w2 & m3 & w3 & m4 & w4 & m5 & w5 & m6 & w6 &
          E1 & E2 & E3 & E4 & E5 & E6 & E7 & ->).
  unfold GetHostMetrics, collectors.
  rewrite runCollectors_cons, E1; cbv beta iota.
  rewrite runCollectors_cons, E2; cbv beta iota.
  rewrite runCollectors_cons, E3; cbv beta iota.
  rewrite runCollectors_cons, E4; cbv beta iota.
  rewrite runCollectors_cons, E5; cbv beta iota.
  rewrite runCollectors_cons, E6; cbv beta iota.
  rewrite runCollectors_cons, E7; cbv beta iota.
  destruct r7 as [m7 | [s | name | e] | msg]; try reflexivity.
  rewrite Warnf_skip. reflexivity.
Qed.

(** What such a run leaves untouched, what it records, and the keys of the
    six mappings. *)
Lemma runsInOrder_frame w ms r7 w7 :
  runsInOrder p w ms r7 w7 ->
  Logger w7 = Logger w /\
  ifaceName (host w7) = ifaceName (host w) /\
  calls w7 = (calls w ++ cycleCalls)%list /\
  Forall2 hasKeys ms keysBeforeNetwork /\
  (forall name, r7 = Err (errInterfaceNotFound name) -> name = ifaceName (host w)).
Proof.
  intros (m1 & w1 & m2 & w2 & m3 & w3 & m4 & w4 & m5 & w5 & m6 & w6 &
          E1 & E2 & E3 & E4 & E5 & E6 & E7 & ->).
  destruct (getHostLoad_cases p w) as [(e & _ & E) | (a1 & n1 & _ & E & K1)];
    rewrite E in E1; [discriminate |]; injection E1 as <- <-; clear E.
  match type of E2 with getHostMem p ?w1 = _ =>
    destruct (getHostMem_cases p w1) as [(e & _ & E) | (a2 & n2 & _ & E & K2)]
  end; rewrite E in E2; [discriminate |]; injection E2 as <- <-; clear E.
  match type of E3 with getHostSwap p ?w2 = _ =>
    destruct (getHostSwap_cases p w2) as [(e & _ & E) | (a3 & n3 & _ & E & K3)]
  end; rewrite E in E3; [discriminate |]; injection E3 as <- <-; clear E.
  match type of E4 with getHostFileSystemUsage p ?w3 = _ =>
    destruct (getHostFileSystemUsage_cases p w3)
      as [(e & _ & E) | (a4 & n4 & _ & E & K4)]
  end; rewrite E in E4; [discriminate |]; injection E4 as <- <-; clear E.
  match type of E5 with getHostUptime p ?w4 = _ =>
    destruct (getHostUptime_cases p w4) as [(e & _ & E) | (a5 & n5 & _ & E & K5)]
  end; rewrite E in E5; [discriminate |]; injection E5 as <- <-; clear E.
  rewrite getHostCpuTimes_eq in E6.
  destruct (cpu_CPUTimes p false) as [e | [| current rest]];
    [discriminate | discriminate |]; injection E6 as <- <-.
  rewrite getHostNetworkUsage_eq in E7. injection E7 as <- <-.
  cbn [Logger host ifaceName calls recordCall].
  split; [reflexivity |]. split; [reflexivity |].
  split; [rewrite <- !app_assoc; reflexivity |].
  split.
  - unfold keysBeforeNetwork.
    repeat (apply Forall2_cons_2; [eassumption || apply calculateCpuPercent_keys |]).
    apply Forall2_nil_2.
  - intros name H.
    destruct (net_NetIOCounters p true) as [e | netStat]; [discriminate |].
    destruct (findInterface _ netStat); [discriminate |].
    injection H as <-. reflexivity.
Qed.

End Cycle.

Section LoopErrors.

(** The loop never hands [errInterfaceNotFound] to its caller. *)
Lemma runCollectors_never_not_found cs ms w name w' :
  runCollectors cs ms w <> (Err (errInterfaceNotFound name), w').
Proof.
  revert ms w. induction cs as [| c cs IH]; intros ms w; [discriminate |].
  rewrite runCollectors_cons.
  destruct (c w) as [[m | e | msg] w1]; [apply IH | | discriminate].
  destruct e; [discriminate | apply IH | discriminate].
Qed.

End LoopErrors.

(** ** Claims on the collection cycle *)

Section CycleClaims.

(** C5: in a cycle that reaches the network producer and sees it fail
    because no interface has the configured name, [GetHostMetrics] still
    returns a sequence: the six earlier mappings and nothing for the network,
    no empty mapping either; one warning is logged, and
    [errInterfaceNotFound] is never what a cycle returns. *)
Theorem GetHostMetrics_interface_skip :
  (forall p w ms name w7,
      runsInOrder p w ms (Err (errInterfaceNotFound name)) w7 ->
      exists w',
        GetHostMetrics p w = (Ok ms, w') /\
        name = ifaceName (host w) /\
        Forall2 hasKeys ms keysBeforeNetwork /\
        Forall (fun m : stats =>
                  m <> ∅ /\ m !! "netrx" = None /\ m !! "nettx" = None) ms /\
        Logger w' = (Logger w ++ [skipWarning name])%list) /\
  (forall p w name w',
      GetHostMetrics p w <> (Err (errInterfaceNotFound name), w')).
Proof.
  split.
  - intros p w ms name w7 Hrun.
    pose proof (GetHostMetrics_runsInOrder p w ms _ w7 Hrun) as Hcycle.
    destruct (runsInOrder_frame p w ms _ w7 Hrun)
      as (Hlog & _ & _ & Hkeys & Hname).
    exists (skipLogged name w7). split; [exact Hcycle |].
    split; [apply Hname; reflexivity |]. split; [exact Hkeys |]. split.
    + unfold keysBeforeNetwork in Hkeys.
      repeat match goal with
             | H : Forall2 _ _ (_ :: _) |- _ =>
                 apply Forall2_cons_inv_r in H as (? & ? & ? & H & ->)
             | H : Forall2 _ _ [] |- _ => apply Forall2_nil_inv_r in H as ->
             end.
      repeat (apply Forall_cons_2;
              [split;
               [eapply hasKeys_nonempty; [eassumption | apply list_elem_of_here]
               | split; (eapply hasKeys_lookup_None; [eassumption |]);
                 intros Hin; apply list_elem_of_In in Hin; cbn in Hin;
                 intuition discriminate] |]).
      apply Forall_nil_2.
    + cbn [skipLogged Logger]. rewrite Hlog. reflexivity.
  - intros p w name w'. apply runCollectors_never_not_found.
Qed.

Lemma GetHostMetrics_interface_skip_witness :
  exists ms w',
    GetHostMetrics samplePlatform (worldOf strayClient) = (Ok ms, w') /\
    Forall2 hasKeys ms keysBeforeNetwork /\
    Logger w' = [skipWarning "eth7"].
Proof.
  pose (get := fun (c : M stats) w =>
                 match fst (c w) with Ok m => m | _ => ∅ end).
  pose (w0 := worldOf strayClient).
  pose (w1 := recordCall CallLoadAvg w0).
  pose (w2 := recordCall CallVirtualMemory w1).
  pose (w3 := recordCall CallSwapMemory w2).
  pose (w4 := recordCall (CallDiskUsage "/") w3).
  pose (w5 := recordCall CallUptime w4).
  pose (w6 := snd (getHostCpuTimes samplePlatform w5)).
  pose (w7 := recordCall (CallNetIOCounters true) w6).
  pose (ms := [get (getHostLoad samplePlatform) w0;
               get (getHostMem samplePlatform) w1;
               get (getHostSwap samplePlatform) w2;
               get (getHostFileSystemUsage samplePlatform) w3;
               get (getHostUptime samplePlatform) w4;
               get (getHostCpuTimes samplePlatform) w5]).
  destruct (proj1 GetHostMetrics_interface_skip samplePlatform w0 ms "eth7" w7)
    as (w' & Hcycle & _ & Hkeys & _ & Hlog).
  - unfold runsInOrder.
    exists (get (getHostLoad samplePlatform) w0), w1,
      (get (getHostMem samplePlatform) w1), w2,
      (get (getHostSwap samplePlatform) w2), w3,
      (get (getHostFileSystemUsage samplePlatform) w3), w4,
      (get (getHostUptime samplePlatform) w4), w5,
      (get (getHostCpuTimes samplePlatform) w5), w6.
    repeat (split; [reflexivity |]). reflexivity.
  - exists ms, w'. split; [exact Hcycle |]. split; [exact Hkeys |]. exact Hlog.
Defined.

(** C6: when a producer of the cycle fails with an error that is not
    [errInterfaceNotFound], the producers before it not having ended the
    cycle, [GetHostMetrics] returns that very error and no metrics, whatever
    was gathered before. *)
Theorem GetHostMetrics_fail_fast p w pre collector post ms w1 e w2 :
  collectors p = (pre ++ collector :: post)%list ->
  runCollectors pre [] w = (Ok ms, w1) ->
  collector w1 = (Err e, w2) ->
  (forall name, e <> errInterfaceNotFound name) ->
  GetHostMetrics p w = (Err e, w2).
Proof.
  intros Hsplit Hpre Hfail Hne. unfold GetHostMetrics.
  rewrite Hsplit, runCollectors_app, Hpre, runCollectors_cons, Hfail.
  destruct e as [s | name | pe]; try reflexivity.
  destruct (Hne name). reflexivity.
Qed.

Lemma GetHostMetrics_fail_fast_witness :
  GetHostMetrics samplePlatformNoMem (worldOf warmClient) =
    (Err (platformErr memFailure),
     recordCall CallVirtualMemory (recordCall CallLoadAvg (worldOf warmClient))).
Proof.
  apply (GetHostMetrics_fail_fast samplePlatformNoMem (worldOf warmClient)
           [getHostLoad samplePlatformNoMem] (getHostMem samplePlatformNoMem)
           (skipn 2 (collectors samplePlatformNoMem))
           (match fst (getHostLoad samplePlatformNoMem (worldOf warmClient)) with
            | Ok m => [m]
            | _ => []
            end)
           (recordCall CallLoadAvg (worldOf warmClient))).
  - reflexivity.
  - reflexivity.
  - reflexivity.
  - discriminate.
Defined.




End CycleClaims.

(** * Further properties of the cycle *)

(** ** How a cycle ends, by what the platform returns *)

Section Outcome.

Variable p : Platform.

Local Ltac use_reads :=
  repeat match goal with
         | H : ?r = inl _ |- context [?r] => rewrite H
         | H : ?r = inr _ |- context [?r] => rewrite H
         end.

Local Ltac worlds :=
  repeat match goal with x := _ : World |- _ => subst x end.

Local Ltac failed_at k :=
  left; exists k; do 2 eexists;
  split; [unfold firstFailure, cycleReadErrors; use_reads; split; reflexivity |];
  split; [first [ intros H; discriminate H
                | intros _; unfold cpuSample; use_reads; eexists; reflexivity ] |];
  split; [reflexivity |];
  worlds; cbn [calls host Logger ifaceName lastCPUStats recordCall];
  split; [rewrite <- ?app_assoc; reflexivity |];
  split; [reflexivity |];
  first [ reflexivity | unfold cpuSample; use_reads; reflexivity ].

(** The three ways a cycle can end: with the error of the first failing
    read, with the panic of an empty CPU slice, or with a sequence after all
    seven producers have run. *)
Lemma GetHostMetrics_outcome w :
  (exists k e w',
      firstFailure p k e /\
      (k = 6 -> is_Some (cpuSample p)) /\
      GetHostMetrics p w = (Err (platformErr e), w') /\
      calls w' = (calls w ++ take (S k) cycleCalls)%list /\
      Logger w' = Logger w /\
      host w' = (if Nat.eqb k 6
                 then {| ifaceName := ifaceName (host w);
                         lastCPUStats := cpuSample p |}
                 else host w)) \/
  (take 5 (cycleReadErrors p) = replicate 5 None /\
   cpu_CPUTimes p false = inr [] /\
   GetHostMetrics p w =
     (Panic "runtime error: index out of range",
      {| host := host w; calls := (calls w ++ take 6 cycleCalls)%list;
         Logger := Logger w |})) \/
  (exists current ms r7 w7,
      cycleReadErrors p = replicate 7 None /\
      cpuSample p = Some current /\
      runsInOrder p w ms r7 w7 /\
      ms !! 5 = Some (calculateCpuPercent (host w) current) /\
      host w7 = {| ifaceName := ifaceName (host w);
                   lastCPUStats := Some current |} /\
      Logger w7 = Logger w /\
      ((exists m7, r7 = Ok m7 /\
                   GetHostMetrics p w = (Ok (ms ++ [m7])%list, w7)) \/
       (r7 = Err (errInterfaceNotFound (ifaceName (host w))) /\
        GetHostMetrics p w = (Ok ms, skipLogged (ifaceName (host w)) w7)))).
Proof.
  unfold GetHostMetrics, collectors.
  rewrite runCollectors_cons.
  destruct (getHostLoad_cases p w) as [(e & R1 & E1) | (a1 & m1 & R1 & E1 & _)];
    rewrite E1; cbv beta iota; [failed_at 0 |].
  set (w1 := recordCall CallLoadAvg w) in *.
  rewrite runCollectors_cons.
  destruct (getHostMem_cases p w1) as [(e & R2 & E2) | (a2 & m2 & R2 & E2 & _)];
    rewrite E2; cbv beta iota; [failed_at 1 |].
  set (w2 := recordCall CallVirtualMemory w1) in *.
  rewrite runCollectors_cons.
  destruct (getHostSwap_cases p w2) as [(e & R3 & E3) | (a3 & m3 & R3 & E3 & _)];
    rewrite E3; cbv beta iota; [failed_at 2 |].
  set (w3 := recordCall CallSwapMemory w2) in *.
  rewrite runCollectors_cons.
  destruct (getHostFileSystemUsage_cases p w3)
    as [(e & R4 & E4) | (a4 & m4 & R4 & E4 & _)];
    rewrite E4; cbv beta iota; [failed_at 3 |].
  set (w4 := recordCall (CallDiskUsage "/") w3) in *.
  rewrite runCollectors_cons.
  destruct (getHostUptime_cases p w4) as [(e & R5 & E5) | (a5 & m5 & R5 & E5 & _)];
    rewrite E5; cbv beta iota; [failed_at 4 |].
  set (w5 := recordCall CallUptime w4) in *.
  rewrite runCollectors_cons.
  pose proof (getHostCpuTimes_eq p w5) as E6.
  destruct (cpu_CPUTimes p false) as [e | [| current rest]] eqn:R6;
    rewrite E6; cbv beta iota; [failed_at 5 | |].
  { right; left.
    split; [unfold cycleReadErrors; use_reads; reflexivity |].
    split; [reflexivity |].
    worlds. unfold recordCall. cbn [calls host Logger].
    rewrite <- !app_assoc. reflexivity. }
  set (w6 := {| host := {| ifaceName := ifaceName (host w5);
                           lastCPUStats := Some current |};
                calls := calls w5 ++ [CallCPUTimes false];
                Logger := Logger w5 |}) in *.
  rewrite runCollectors_cons.
  pose proof (getHostNetworkUsage_eq p w6) as E7.
  destruct (net_NetIOCounters p true) as [e | netStat] eqn:R7;
    [rewrite E7; cbv beta iota; failed_at 6 |].
  destruct (findInterface (ifaceName (host w6)) netStat) as [netInterface |];
    rewrite E7; cbv beta iota; right; right; exists current; do 3 eexists;
    (split; [unfold cycleReadErrors; use_reads; reflexivity |]);
    (split; [unfold cpuSample; use_reads; reflexivity |]);
    (split; [unfold runsInOrder; do 12 eexists;
             repeat (split; [eassumption |]); reflexivity |]);
    (split; [reflexivity |]); (split; [reflexivity |]); (split; [reflexivity |]).
  - left. eexists. split; reflexivity.
  - right. split; [reflexivity |]. rewrite Warnf_skip. reflexivity.
Qed.

End Outcome.

(** ** Success, panic and failure of a cycle *)

Section CycleOutcomes.

Lemma firstFailure_not_all_ok p k e :
  firstFailure p k e -> cycleReadErrors p <> replicate 7 None.
Proof.
  intros [_ Hk] Hall. rewrite Hall in Hk.
  apply lookup_replicate in Hk as [Hk _]. discriminate.
Qed.

(** A first failure leaves the reads before it without error. *)
Lemma firstFailure_at p k e : firstFailure p k e -> k < 7.
Proof.
  intros [_ Hk]. apply lookup_lt_Some in Hk. exact Hk.
Qed.

(** X1: a cycle returns a sequence exactly when each of its seven platform
    reads returns a value and the CPU read holds a sample; whether an
    interface has the configured name plays no part, nor does the state of
    the collector. *)
Theorem GetHostMetrics_succeeds_iff p w :
  (exists metrics w', GetHostMetrics p w = (Ok metrics, w')) <->
  cycleReadErrors p = replicate 7 None /\ is_Some (cpuSample p).
Proof.
  destruct (GetHostMetrics_outcome p w)
    as [(k & e & w' & Hfail & _ & E & _)
       | [(_ & Hcpu & E)
         | (c & ms & r7 & w7 & Hall & Hc & _ & _ & _ & _ & Hend)]].
  - split.
    + intros (metrics & w'' & H). rewrite E in H. discriminate.
    + intros [Hall _]. destruct (firstFailure_not_all_ok p k e Hfail Hall).
  - split.
    + intros (metrics & w'' & H). rewrite E in H. discriminate.
    + intros [_ [c Hc]]. unfold cpuSample in Hc. rewrite Hcpu in Hc. discriminate.
  - split.
    + intros _. split; [exact Hall | rewrite Hc; eexists; reflexivity].
    + intros _. destruct Hend as [(m7 & _ & E) | (_ & E)]; eauto.
Qed.

Lemma GetHostMetrics_succeeds_iff_witness :
  (exists metrics w',
      GetHostMetrics samplePlatform (worldOf strayClient) = (Ok metrics, w')) /\
  ~ (exists metrics w',
        GetHostMetrics samplePlatformNoNet (worldOf warmClient) = (Ok metrics, w')).
Proof.
  split.
  - apply (proj2 (GetHostMetrics_succeeds_iff samplePlatform (worldOf strayClient))).
    split; [reflexivity | eexists; reflexivity].
  - intros H.
    apply (proj1 (GetHostMetrics_succeeds_iff samplePlatformNoNet (worldOf warmClient)))
      in H as [H _].
    discriminate H.
Defined.

(** X2: a cycle panics exactly when its first five reads return values and
    the CPU read returns no error and an empty slice; the collector and the
    log are then as before the cycle. *)
Theorem GetHostMetrics_panics_iff p w :
  ((exists msg w', GetHostMetrics p w = (Panic msg, w')) <->
   take 5 (cycleReadErrors p) = replicate 5 None /\
   cpu_CPUTimes p false = inr []) /\
  (forall msg w',
      GetHostMetrics p w = (Panic msg, w') ->
      host w' = host w /\ Logger w' = Logger w /\
      calls w' = (calls w ++ take 6 cycleCalls)%list).
Proof.
  destruct (GetHostMetrics_outcome p w)
    as [(k & e & w' & Hfail & Hsix & E & _)
       | [(Hfive & Hcpu & E)
         | (c & ms & r7 & w7 & _ & Hc & _ & _ & _ & _ & Hend)]].
  - split; [split |].
    + intros (msg & w'' & H). rewrite E in H. discriminate.
    + intros [Hfive Hcpu]. exfalso.
      pose proof (firstFailure_at p k e Hfail) as Hlt.
      destruct Hfail as [_ Hk].
      destruct (decide (k < 5)) as [Hk5 | Hk5].
      * rewrite <- (lookup_take_lt _ 5 k) in Hk by exact Hk5.
        rewrite Hfive in Hk. apply lookup_replicate in Hk as [Hk _]. discriminate.
      * destruct (decide (k = 5)) as [-> | Hne].
        -- unfold cycleReadErrors in Hk. rewrite Hcpu in Hk. discriminate.
        -- assert (k = 6) as Hk6 by lia. destruct (Hsix Hk6) as [c Hc].
           unfold cpuSample in Hc. rewrite Hcpu in Hc. discriminate.
    + intros msg w'' H. rewrite E in H. discriminate.
  - split; [split |].
    + intros _. split; assumption.
    + intros _. eauto.
    + intros msg w'' H. rewrite E in H. injection H as _ <-.
      repeat split.
  - assert (Hno : forall msg w'', GetHostMetrics p w <> (Panic msg, w''))
      by (intros msg w'' H; destruct Hend as [(m7 & _ & E) | (_ & E)];
          rewrite E in H; discriminate).
    split; [split |].
    + intros (msg & w'' & H). destruct (Hno _ _ H).
    + intros [_ Hcpu]. unfold cpuSample in Hc. rewrite Hcpu in Hc. discriminate.
    + intros msg w'' H. destruct (Hno _ _ H).
Qed.

Lemma GetHostMetrics_panics_iff_witness :
  exists msg w',
    GetHostMetrics samplePlatformNoCpu (worldOf warmClient) = (Panic msg, w') /\
    host w' = warmClient /\ Logger w' = [] /\ calls w' = take 6 cycleCalls.
Proof.
  destruct (proj2 (proj1 (GetHostMetrics_panics_iff samplePlatformNoCpu
                            (worldOf warmClient))))
    as (msg & w' & E); [split; reflexivity |].
  exists msg, w'. split; [exact E |].
  exact (proj2 (GetHostMetrics_panics_iff samplePlatformNoCpu (worldOf warmClient))
           msg w' E).
Defined.

(** X3: the error a cycle returns is always the error of the first failing
    platform read, as the platform gave it; the reads before it returned
    values, and no platform call follows the failing one. *)
Theorem GetHostMetrics_error_is_first_failure p w e w' :
  GetHostMetrics p w = (Err e, w') ->
  exists k pe,
    e = platformErr pe /\
    firstFailure p k pe /\
    calls w' = (calls w ++ take (S k) cycleCalls)%list.
Proof.
  intros H.
  destruct (GetHostMetrics_outcome p w)
    as [(k & pe & w'' & Hfail & _ & E & Hcalls & _)
       | [(_ & _ & E)
         | (c & ms & r7 & w7 & _ & _ & _ & _ & _ & _ & [(m7 & _ & E) | (_ & E)])]];
    rewrite E in H; try discriminate.
  injection H as <- <-. exists k, pe. repeat split; try assumption; apply Hfail.
Qed.

Lemma GetHostMetrics_error_is_first_failure_witness :
  exists k pe,
    platformErr netFailure = platformErr pe /\
    firstFailure samplePlatformNoNet k pe /\
    calls (snd (GetHostMetrics samplePlatformNoNet (worldOf warmClient)))
      = ([] ++ take (S k) cycleCalls)%list.
Proof.
  apply (GetHostMetrics_error_is_first_failure samplePlatformNoNet
           (worldOf warmClient) (platformErr netFailure)
           (snd (GetHostMetrics samplePlatformNoNet (worldOf warmClient)))).
  reflexivity.
Defined.

End CycleOutcomes.

(** ** What a cycle leaves in the collector and in the log *)

Section CycleState.

(** X4: a cycle never changes the interface name of the collector, however
    it ends. *)
Theorem GetHostMetrics_keeps_ifaceName p w :
  ifaceName (host (snd (GetHostMetrics p w))) = ifaceName (host w).
Proof.
  destruct (GetHostMetrics_outcome p w)
    as [(k & e & w' & _ & _ & E & _ & _ & Hhost)
       | [(_ & _ & E)
         | (c & ms & r7 & w7 & _ & _ & _ & _ & Hhost & _ &
            [(m7 & _ & E) | (_ & E)])]];
    rewrite E; cbn [snd skipLogged host]; try rewrite Hhost; try reflexivity.
  destruct (Nat.eqb k 6); reflexivity.
Qed.

(** X5: a cycle writes to the log only when it skips the network metrics: a
    cycle that fails or panics logs nothing, and one that returns a sequence
    either returns seven mappings and logs nothing, or returns six and logs
    the one warning that names the collector's interface. *)
Theorem GetHostMetrics_logs_only_skip p w :
  match fst (GetHostMetrics p w) with
  | Ok metrics =>
      (length metrics = 7 /\ Logger (snd (GetHostMetrics p w)) = Logger w) \/
      (length metrics = 6 /\
       Logger (snd (GetHostMetrics p w))
         = (Logger w ++ [skipWarning (ifaceName (host w))])%list)
  | _ => Logger (snd (GetHostMetrics p w)) = Logger w
  end.
Proof.
  destruct (GetHostMetrics_outcome p w)
    as [(k & e & w' & _ & _ & E & _ & Hlog & _)
       | [(_ & _ & E)
         | (c & ms & r7 & w7 & _ & _ & Hrun & _ & _ & Hlog &
            [(m7 & _ & E) | (_ & E)])]];
    rewrite E; cbn [fst snd]; try assumption; try reflexivity.
  - left. split; [| exact Hlog].
    destruct Hrun as (m1 & w1 & m2 & w2 & m3 & w3 & m4 & w4 & m5 & w5 & m6 & w6 & Hrun).
    destruct Hrun as (_ & _ & _ & _ & _ & _ & _ & ->). reflexivity.
  - right. split; [| cbn [skipLogged Logger]; rewrite Hlog; reflexivity].
    destruct Hrun as (m1 & w1 & m2 & w2 & m3 & w3 & m4 & w4 & m5 & w5 & m6 & w6 & Hrun).
    destruct Hrun as (_ & _ & _ & _ & _ & _ & _ & ->). reflexivity.
Qed.

(** X6: the sample a cycle leaves in the collector.  When the first five
    reads return values and the CPU read holds a sample, that sample is
    retained, also when the network read then fails and the cycle returns an
    error; otherwise the collector is as it was. *)
Theorem GetHostMetrics_retained_sample p w :
  (forall current,
      take 5 (cycleReadErrors p) = replicate 5 None ->
      cpuSample p = Some current ->
      lastCPUStats (host (snd (GetHostMetrics p w))) = Some current) /\
  (take 5 (cycleReadErrors p) <> replicate 5 None \/ cpuSample p = None ->
   host (snd (GetHostMetrics p w)) = host w).
Proof.
  destruct (GetHostMetrics_outcome p w)
    as [(k & e & w' & Hfail & Hsix & E & _ & _ & Hhost)
       | [(Hfive & Hcpu & E)
         | (c & ms & r7 & w7 & Hall & Hc & _ & _ & Hhost & _ & Hend)]].
  - rewrite E. cbn [snd]. rewrite Hhost.
    pose proof (firstFailure_at p k e Hfail) as Hlt.
    destruct (decide (k = 6)) as [-> | Hne].
    + cbn [Nat.eqb lastCPUStats]. split.
      * intros current _ Hc. exact Hc.
      * intros [Hfive | Hnone].
        -- destruct Hfive. destruct Hfail as [Htake _].
           apply (f_equal (take 5)) in Htake. rewrite take_take in Htake.
           exact Htake.
        -- destruct (Hsix eq_refl) as [c Hc]. rewrite Hnone in Hc. discriminate.
    + rewrite (proj2 (Nat.eqb_neq k 6) Hne). split; [| reflexivity].
      intros current Hfive Hc. exfalso.
      destruct Hfail as [_ Hk].
      destruct (decide (k = 5)) as [-> | Hne5].
      * unfold cycleReadErrors, cpuSample in *.
        destruct (cpu_CPUTimes p false) as [pe | [| c rest]]; discriminate.
      * rewrite <- (lookup_take_lt _ 5 k) in Hk by lia.
        rewrite Hfive in Hk. apply lookup_replicate in Hk as [Hk _]. discriminate.
  - rewrite E. cbn [snd host]. split; [| reflexivity].
    intros current _ Hc. unfold cpuSample in Hc. rewrite Hcpu in Hc. discriminate.
  - assert (Hw : host (snd (GetHostMetrics p w))
                 = {| ifaceName := ifaceName (host w); lastCPUStats := Some c |})
      by (destruct Hend as [(m7 & _ & E) | (_ & E)]; rewrite E; exact Hhost).
    rewrite Hw. cbn [lastCPUStats]. split.
    + intros current _ Hcur. rewrite Hcur in Hc. exact (eq_sym Hc).
    + intros [Hfive | Hnone].
      * destruct Hfive. rewrite Hall. reflexivity.
      * rewrite Hnone in Hc. discriminate.
Qed.

Lemma GetHostMetrics_retained_sample_witness :
  fst (GetHostMetrics samplePlatformNoNet (worldOf warmClient))
    = Err (platformErr netFailure) /\
  lastCPUStats (host (snd (GetHostMetrics samplePlatformNoNet (worldOf warmClient))))
    = Some sampleCurrent /\
  host (snd (GetHostMetrics samplePlatformNoMem (worldOf warmClient))) = warmClient.
Proof.
  split; [reflexivity |]. split.
  - apply (proj1 (GetHostMetrics_retained_sample samplePlatformNoNet
                    (worldOf warmClient))); reflexivity.
  - apply (proj2 (GetHostMetrics_retained_sample samplePlatformNoMem
                    (worldOf warmClient))).
    left. discriminate.
Defined.

End CycleState.

(** ** The CPU entry over consecutive reads *)

Section ConsecutiveReads.

Local Open Scope float_scope.

(** A zero or NaN divided by a zero or NaN is NaN. *)
Lemma zero_or_nan_quotient a b :
  is_zero a = true \/ a = nan ->
  is_zero b = true \/ b = nan ->
  a / b = nan.
Proof.
  intros Ha [Hb | ->]; [| apply div_by_nan].
  apply is_zero_Prim2SF in Hb as [sb Hb].
  rewrite <- (SF2Prim_Prim2SF (a / b)), div_spec, Hb.
  destruct Ha as [Ha | ->].
  - apply is_zero_Prim2SF in Ha as [sa Ha]. rewrite Ha. reflexivity.
  - reflexivity.
Qed.

(** With the sample retained equal to the sample read, every value is NaN. *)
Lemma calculateCpuPercent_same_sample h current :
  lastCPUStats h = Some current ->
  Forall (fun k => calculateCpuPercent h current !! k = Some nan) cpuKeys.
Proof.
  intros Hlast.
  destruct (calculateCpuPercent_some h current current Hlast)
    as (Hu & Hs & Hi & Hst & Hw & Hb).
  unfold deltaTotalOf in *.
  assert (Hq : forall x, (x - x) / (cpu.Total current - cpu.Total current) = nan)
    by (intros x; apply zero_or_nan_quotient; apply sub_self).
  rewrite !Hq in *. repeat constructor; assumption.
Qed.

(** X7: two runs of the CPU producer that read the same sample: the second
    one reports NaN under each of the six keys, whatever the sample and
    whatever the collector held before the first run. *)
Theorem getHostCpuTimes_same_sample_twice p w current rest :
  cpu_CPUTimes p false = inr (current :: rest) ->
  exists m1 w1 m2 w2,
    getHostCpuTimes p w = (Ok m1, w1) /\
    getHostCpuTimes p w1 = (Ok m2, w2) /\
    Forall (fun k => m2 !! k = Some nan) cpuKeys.
Proof.
  intros Hread. do 4 eexists.
  split; [apply (getHostCpuTimes_ok p w current rest Hread) |].
  split; [apply (getHostCpuTimes_ok p _ current rest Hread) |].
  apply calculateCpuPercent_same_sample. reflexivity.
Qed.

Lemma getHostCpuTimes_same_sample_twice_witness :
  exists m1 w1 m2 w2,
    getHostCpuTimes samplePlatform (worldOf sampleClient) = (Ok m1, w1) /\
    getHostCpuTimes samplePlatform w1 = (Ok m2, w2) /\
    Forall (fun k => m2 !! k = Some nan) cpuKeys.
Proof.
  apply (getHostCpuTimes_same_sample_twice samplePlatform (worldOf sampleClient)
           sampleCurrent []).
  reflexivity.
Defined.

(** X8: over two cycles that both return a sequence, the sixth mapping of
    the second one is computed from the CPU samples of the two cycles and
    from nothing else: each base value is the category's delta between the
    two samples over the delta of their totals, whatever the collector
    retained before the first cycle. *)
Theorem GetHostMetrics_second_cycle_cpu p1 p2 w metrics1 w1 metrics2 w2 c1 c2 :
  GetHostMetrics p1 w = (Ok metrics1, w1) ->
  GetHostMetrics p2 w1 = (Ok metrics2, w2) ->
  cpuSample p1 = Some c1 ->
  cpuSample p2 = Some c2 ->
  exists m : stats,
    metrics2 !! 5%nat = Some m /\
    let d := cpu.Total c2 - cpu.Total c1 in
    m !! "cpu_user" = Some ((cpu.User c2 - cpu.User c1) / d) /\
    m !! "cpu_sys" = Some ((cpu.System c2 - cpu.System c1) / d) /\
    m !! "cpu_idle" = Some ((cpu.Idle c2 - cpu.Idle c1) / d) /\
    m !! "cpu_stolen" = Some ((cpu.Stolen c2 - cpu.Stolen c1) / d) /\
    m !! "cpu_wait" = Some ((cpu.Iowait c2 - cpu.Iowait c1) / d) /\
    m !! "cpu_busy" = Some ((cpu.User c2 - cpu.User c1) / d
                            + (cpu.System c2 - cpu.System c1) / d).
Proof.
  intros E1 E2 Hc1 Hc2.
  assert (Hlast : lastCPUStats (host w1) = Some c1).
  { destruct (GetHostMetrics_outcome p1 w)
      as [(k & e & w' & _ & _ & E & _)
         | [(_ & _ & E)
           | (c & ms & r7 & w7 & _ & Hc & _ & _ & Hhost & _ &
              [(m7 & _ & E) | (_ & E)])]];
      rewrite E in E1; try discriminate; injection E1 as _ <-;
      cbn [skipLogged host]; rewrite Hhost; cbn [lastCPUStats]; congruence. }
  destruct (GetHostMetrics_outcome p2 w1)
    as [(k & e & w' & _ & _ & E & _)
       | [(_ & _ & E)
         | (c & ms & r7 & w7 & _ & Hc & Hrun & Hsix & _ & _ & Hend)]];
    try (rewrite E in E2; discriminate).
  assert (c = c2) as -> by congruence.
  exists (calculateCpuPercent (host w1) c2). split.
  - destruct Hend as [(m7 & _ & E) | (_ & E)]; rewrite E in E2;
      injection E2 as <- _; [| exact Hsix].
    rewrite lookup_app_l; [exact Hsix |].
    apply lookup_lt_Some in Hsix. exact Hsix.
  - exact (calculateCpuPercent_some (host w1) c1 c2 Hlast).
Qed.

Lemma GetHostMetrics_second_cycle_cpu_witness :
  exists m : stats,
    match fst (GetHostMetrics samplePlatform
                 (snd (GetHostMetrics samplePlatformEarlier
                         (worldOf sampleClient)))) with
    | Ok metrics2 => metrics2 !! 5%nat = Some m
    | _ => False
    end /\
    m !! "cpu_user" = Some ((150 - 100) / (1300 - 1000)) /\
    m !! "cpu_idle" = Some ((1020 - 800) / (1300 - 1000)).
Proof.
  pose (r1 := GetHostMetrics samplePlatformEarlier (worldOf sampleClient)).
  pose (r2 := GetHostMetrics samplePlatform (snd r1)).
  destruct (GetHostMetrics_second_cycle_cpu samplePlatformEarlier samplePlatform
              (worldOf sampleClient)
              (match fst r1 with Ok ms => ms | _ => [] end) (snd r1)
              (match fst r2 with Ok ms => ms | _ => [] end) (snd r2)
              samplePrevious sampleCurrent)
    as (m & Hm & Huser & _ & Hidle & _); try reflexivity.
  exists m. split; [exact Hm |]. split; [exact Huser | exact Hidle].
Defined.

End ConsecutiveReads.

(** ** The lines of package bslog *)

Section LogLines.

Lemma append_assoc (a b c : string) : (a ++ b) ++ c = a ++ (b ++ c).
Proof.
  induction a as [| x a IH]; [reflexivity |].
  change (String x ((a ++ b) ++ c) = String x (a ++ (b ++ c))).
  rewrite IH. reflexivity.
Qed.

(** The two steps of [fmt.Sprintf]: a verb takes the next argument, any
    other character is copied. *)
Lemma Sprintf_verb rest a args :
  fmt.Sprintf (String "%" (String "s" rest)) (a :: args)
    = a ++ fmt.Sprintf rest args.
Proof. reflexivity. Qed.

Lemma Sprintf_char c rest args :
  Ascii.eqb c "%" = false ->
  fmt.Sprintf (String c rest) args = String c (fmt.Sprintf rest args).
Proof.
  intros Hc. destruct rest as [| d rest]; [reflexivity |].
  cbn [fmt.Sprintf]. rewrite Hc. reflexivity.
Qed.

(** A format that ends where another starts: the first one takes as many
    arguments as it has verbs, the second one the rest. *)
Lemma Sprintf_app_bounded n :
  forall pre a format args,
    String.length pre <= n ->
    verbCount pre = Some a ->
    a <= length args ->
    fmt.Sprintf (pre ++ format) args
      = fmt.Sprintf pre (take a args) ++ fmt.Sprintf format (drop a args).
Proof.
  induction n as [| n IH]; intros pre a format args Hlen Hpre Hargs.
  - destruct pre as [| c pre]; [| cbn in Hlen; lia].
    injection Hpre as <-. reflexivity.
  - destruct pre as [| c pre]; [injection Hpre as <-; reflexivity |].
    cbn [String.length] in Hlen. cbn [verbCount] in Hpre.
    change (String c pre ++ format) with (String c (pre ++ format)).
    destruct (Ascii.eqb c "%") eqn:Hc.
    + apply Ascii.eqb_eq in Hc as ->.
      destruct pre as [| d pre]; [discriminate |].
      destruct (Ascii.eqb d "s") eqn:Hd; [| discriminate].
      apply Ascii.eqb_eq in Hd as ->.
      destruct (verbCount pre) as [a' |] eqn:Hpre'; [| discriminate].
      injection Hpre as <-.
      destruct args as [| p args]; [cbn in Hargs; lia |].
      cbn [length] in Hargs. cbn [String.length] in Hlen.
      change (String "s" pre ++ format) with (String "s" (pre ++ format)).
      cbn [take drop]. rewrite !Sprintf_verb.
      rewrite (IH pre a' format args) by (first [lia | exact Hpre']).
      rewrite append_assoc. reflexivity.
    + rewrite !Sprintf_char by exact Hc.
      rewrite (IH pre a format args) by (first [lia | exact Hpre]).
      reflexivity.
Qed.

Lemma Sprintf_app pre a format args :
  verbCount pre = Some a ->
  a <= length args ->
  fmt.Sprintf (pre ++ format) args
    = fmt.Sprintf pre (take a args) ++ fmt.Sprintf format (drop a args).
Proof.
  apply (Sprintf_app_bounded (String.length pre)). reflexivity.
Qed.

(** The format [printf] hands to the logger. *)
Lemma printf_format level msg :
  fmt.Sprintf "[%s] %s" [level; msg] = "[" ++ level ++ "] " ++ msg.
Proof.
  transitivity ("[" ++ level ++ "] " ++ (msg ++ "")); [reflexivity |].
  rewrite append_empty_r. reflexivity.
Qed.

(** X9: [printf] puts the level into the format before the parameters are
    applied, so the verbs of the level take the first parameters and those
    of the message the rest.  For a level and a message whose every percent
    sign starts the verb [%s], and as many string parameters as the two have
    verbs, the line is the bracketed level formatted with the first
    parameters, a space, and the message formatted with the remaining ones;
    the call appends that one line and changes nothing else. *)
Theorem printf_line level msg params a b w :
  verbCount level = Some a ->
  verbCount msg = Some b ->
  length params = a + b ->
  bslog.printf level msg params w =
    {| host := host w; calls := calls w;
       Logger := Logger w ++ ["[" ++ fmt.Sprintf level (take a params) ++ "] "
                                ++ fmt.Sprintf msg (drop a params)] |}.
Proof.
  intros Hlevel _ Hparams. unfold bslog.printf. cbv zeta.
  rewrite printf_format. do 3 f_equal.
  change ("[" ++ level ++ "] " ++ msg) with (String "[" (level ++ "] " ++ msg)).
  rewrite Sprintf_char by reflexivity.
  rewrite (Sprintf_app level a) by (first [exact Hlevel | lia]).
  change ("] " ++ msg) with (String "]" (String " " msg)).
  rewrite !Sprintf_char by reflexivity. reflexivity.
Qed.

Lemma printf_line_witness :
  bslog.printf "%s-ERROR" "read of %s failed: %s"
    ["disk"; "meminfo"; "no such file"] (worldOf sampleClient) =
    {| host := sampleClient; calls := [];
       Logger := ["[disk-ERROR] read of meminfo failed: no such file"] |}.
Proof.
  rewrite (printf_line "%s-ERROR" "read of %s failed: %s"
             ["disk"; "meminfo"; "no such file"] 1 2 (worldOf sampleClient));
    reflexivity.
Defined.

(** A format without verb is written as it is. *)
Lemma Sprintf_plain pre : verbCount pre = Some 0 -> fmt.Sprintf pre [] = pre.
Proof.
  induction pre as [| c pre IH]; [reflexivity |].
  cbn [verbCount]. destruct (Ascii.eqb c "%") eqn:Hc.
  - destruct pre as [| d pre]; [discriminate |].
    destruct (Ascii.eqb d "s"); [| discriminate].
    destruct (verbCount pre); discriminate.
  - intros Hpre. rewrite Sprintf_char by exact Hc. rewrite (IH Hpre). reflexivity.
Qed.

Lemma printf_plain_level level msg params w :
  verbCount level = Some 0 ->
  Logger (bslog.printf level msg params w)
    = (Logger w ++ [("[" ++ level ++ "] " ++ fmt.Sprintf msg params)%string])%list.
Proof.
  intros Hlevel. unfold bslog.printf. cbv zeta. cbn [Logger].
  rewrite printf_format. do 2 f_equal.
  change ("[" ++ level ++ "] " ++ msg) with (String "[" (level ++ "] " ++ msg)).
  rewrite Sprintf_char by reflexivity.
  rewrite (Sprintf_app level 0) by (first [exact Hlevel | lia]).
  rewrite take_0, drop_0, (Sprintf_plain level Hlevel).
  change ("] " ++ msg) with (String "]" (String " " msg)).
  rewrite !Sprintf_char by reflexivity. reflexivity.
Qed.

(** X10: the three levelled functions, for a message whose every percent
    sign starts the verb [%s] and as many string parameters as it has verbs:
    [Warnf] and [Errorf] append one line, their bracketed level, a space and
    the formatted message; [Debugf] does the same when [Debug] is set and
    changes nothing when it is not. *)
Theorem levelled_lines msg params w :
  verbCount msg = Some (length params) ->
  Logger (bslog.Warnf msg params w)
    = (Logger w ++ [("[WARNING] " ++ fmt.Sprintf msg params)%string])%list /\
  Logger (bslog.Errorf msg params w)
    = (Logger w ++ [("[ERROR] " ++ fmt.Sprintf msg params)%string])%list /\
  Logger (bslog.Debugf true msg params w)
    = (Logger w ++ [("[DEBUG] " ++ fmt.Sprintf msg params)%string])%list /\
  bslog.Debugf false msg params w = w.
Proof.
  intros _. unfold bslog.Warnf, bslog.Errorf, bslog.Debugf.
  rewrite !printf_plain_level by reflexivity. repeat split.
Qed.

Lemma levelled_lines_witness :
  let msg := "read of %s failed: %s" in
  let params := ["meminfo"; "no such file"] in
  let w := worldOf sampleClient in
  Logger (bslog.Warnf msg params w)
    = ["[WARNING] read of meminfo failed: no such file"] /\
  Logger (bslog.Errorf msg params w)
    = ["[ERROR] read of meminfo failed: no such file"] /\
  Logger (bslog.Debugf true msg params w)
    = ["[DEBUG] read of meminfo failed: no such file"] /\
  bslog.Debugf false msg params w = w.
Proof.
  exact (levelled_lines "read of %s failed: %s" ["meminfo"; "no such file"]
           (worldOf sampleClient) eq_refl).
Defined.

End LogLines.

(** ** The sequence a cycle returns *)

Section CycleOutput.

Lemma getHostNetworkUsage_keys p w m w' :
  getHostNetworkUsage p w = (Ok m, w') -> hasKeys m netKeys.
Proof.
  rewrite getHostNetworkUsage_eq.
  destruct (net_NetIOCounters p true) as [e | netStat]; [discriminate |].
  destruct (findInterface (ifaceName (host w)) netStat); [| discriminate].
  intros [= <- _]. apply netStats_keys.
Qed.

Lemma cycle_keys p w metrics w' :
  GetHostMetrics p w = (Ok metrics, w') ->
  Forall2 hasKeys metrics (keysBeforeNetwork ++ [netKeys]) \/
  Forall2 hasKeys metrics keysBeforeNetwork.
Proof.
  intros H.
  destruct (GetHostMetrics_outcome p w)
    as [(k & e & w'' & _ & _ & E & _)
       | [(_ & _ & E)
         | (c & ms & r7 & w7 & _ & _ & Hrun & _ & _ & _ & Hend)]];
    try (rewrite E in H; discriminate).
  destruct (runsInOrder_frame p w ms r7 w7 Hrun) as (_ & _ & _ & Hkeys & _).
  destruct Hend as [(m7 & -> & E) | (_ & E)]; rewrite E in H; injection H as <- _.
  - left. apply Forall2_app; [exact Hkeys |].
    apply Forall2_cons_2; [| apply Forall2_nil_2].
    destruct Hrun as (m1 & w1 & m2 & w2 & m3 & w3 & m4 & w4 & m5 & w5 & m6 & w6 & Hrun).
    destruct Hrun as (_ & _ & _ & _ & _ & _ & E7 & _).
    exact (getHostNetworkUsage_keys p w6 m7 w7 E7).
  - right. exact Hkeys.
Qed.



(** X12: the first cycle of a collector as [NewHostClient] builds it: when
    it returns a sequence, the sixth mapping holds [0] under each of the six
    CPU keys, whatever the platform reads. *)
Theorem GetHostMetrics_first_cycle_cpu env h p metrics w' :
  NewHostClient env = inr h ->
  GetHostMetrics p (worldOf h) = (Ok metrics, w') ->
  exists m : stats,
    metrics !! 5 = Some m /\
    Forall (fun k => m !! k = Some 0%float) cpuKeys.
Proof.
  intros Hnew H.
  assert (Hnone : lastCPUStats (host (worldOf h)) = None).
  { unfold NewHostClient in Hnew.
    destruct (String.eqb _ _); [discriminate |]. injection Hnew as <-.
    reflexivity. }
  destruct (GetHostMetrics_outcome p (worldOf h))
    as [(k & e & w'' & _ & _ & E & _)
       | [(_ & _ & E)
         | (c & ms & r7 & w7 & _ & _ & _ & Hsix & _ & _ & Hend)]];
    try (rewrite E in H; discriminate).
  exists (calculateCpuPercent (host (worldOf h)) c). split.
  - destruct Hend as [(m7 & _ & E) | (_ & E)]; rewrite E in H;
      injection H as <- _; [| exact Hsix].
    rewrite lookup_app_l; [exact Hsix |].
    apply lookup_lt_Some in Hsix. exact Hsix.
  - apply calculateCpuPercent_none, Hnone.
Qed.

Lemma GetHostMetrics_first_cycle_cpu_witness :
  exists m : stats,
    match fst (GetHostMetrics samplePlatform (worldOf sampleClient)) with
    | Ok metrics => metrics !! 5 = Some m
    | _ => False
    end /\
    Forall (fun k => m !! k = Some 0%float) cpuKeys.
Proof.
  pose (r := GetHostMetrics samplePlatform (worldOf sampleClient)).
  destruct (GetHostMetrics_first_cycle_cpu sampleEnv sampleClient samplePlatform
              (match fst r with Ok metrics => metrics | _ => [] end) (snd r))
    as (m & Hm & Hzero); try reflexivity.
  exists m. split; [exact Hm | exact Hzero].
Defined.

End CycleOutput.

(** ** What the retained sample can change *)

Section RetainedSampleScope.

Variable p : Platform.

Lemma simple_producer_result {A} c (r : platformError + A) (f : A -> stats) w v :
  fst (bind (platformCall c r) (fun a => ret (f a)) w) =
  fst (bind (platformCall c r) (fun a => ret (f a)) v).
Proof. rewrite !bind_platformCall_ret. reflexivity. Qed.

Lemma simple_producers_agree w v m n w' v' :
  (getHostLoad p w = (Ok m, w') -> getHostLoad p v = (Ok n, v') -> m = n) /\
  (getHostMem p w = (Ok m, w') -> getHostMem p v = (Ok n, v') -> m = n) /\
  (getHostSwap p w = (Ok m, w') -> getHostSwap p v = (Ok n, v') -> m = n) /\
  (getHostFileSystemUsage p w = (Ok m, w') ->
   getHostFileSystemUsage p v = (Ok n, v') -> m = n) /\
  (getHostUptime p w = (Ok m, w') -> getHostUptime p v = (Ok n, v') -> m = n).
Proof.
  repeat split; intros E F;
    match type of E with ?f p w = _ =>
      assert (H : fst (f p w) = fst (f p v)) by apply simple_producer_result
    end;
    rewrite E, F in H; injection H as ->; reflexivity.
Qed.

Lemma getHostNetworkUsage_agree w v r s w' v' :
  ifaceName (host w) = ifaceName (host v) ->
  getHostNetworkUsage p w = (r, w') -> getHostNetworkUsage p v = (s, v') -> r = s.
Proof.
  intros Hname. rewrite !getHostNetworkUsage_eq, Hname.
  intros [= <- _] [= <- _]. reflexivity.
Qed.

Lemma getHostNetworkUsage_host w r w' :
  getHostNetworkUsage p w = (r, w') -> host w' = host w.
Proof. rewrite getHostNetworkUsage_eq. intros [= _ <-]. reflexivity. Qed.

(** X13: the retained CPU sample reaches the sixth mapping only.  Two
    collectors with the same interface name that run a cycle over the same
    platform reads, whatever samples they retain and whatever was logged
    before, return sequences of the same length that agree at every position
    but the sixth. *)
Theorem GetHostMetrics_sample_only_in_cpu w v metrics w' metrics' v' :
  ifaceName (host w) = ifaceName (host v) ->
  GetHostMetrics p w = (Ok metrics, w') ->
  GetHostMetrics p v = (Ok metrics', v') ->
  length metrics = length metrics' /\
  forall i : nat, i <> 5 -> metrics !! i = metrics' !! i.
Proof.
  intros Hname H H'.
  destruct (GetHostMetrics_outcome p w)
    as [(k & e & w'' & _ & _ & E & _)
       | [(_ & _ & E)
         | (c & ms & r7 & w7 & _ & _ & Hrun & _ & _ & _ & Hend)]];
    try (rewrite E in H; discriminate).
  destruct (GetHostMetrics_outcome p v)
    as [(k & e & v'' & _ & _ & E & _)
       | [(_ & _ & E)
         | (c' & ns & s7 & v7 & _ & _ & Hrun' & _ & _ & _ & Hend')]];
    try (rewrite E in H'; discriminate).
  destruct (runsInOrder_frame p w ms r7 w7 Hrun) as (_ & Hw7 & _).
  destruct (runsInOrder_frame p v ns s7 v7 Hrun') as (_ & Hv7 & _).
  destruct Hrun as (m1 & w1 & m2 & w2 & m3 & w3 & m4 & w4 & m5 & w5 & m6 & w6 &
                    E1 & E2 & E3 & E4 & E5 & _ & E7 & ->).
  destruct Hrun' as (n1 & v1 & n2 & v2 & n3 & v3 & n4 & v4 & n5 & v5 & n6 & v6 &
                     F1 & F2 & F3 & F4 & F5 & _ & F7 & ->).
  assert (m1 = n1) as ->
    by exact (proj1 (simple_producers_agree w v m1 n1 w1 v1) E1 F1).
  assert (m2 = n2) as ->
    by exact (proj1 (proj2 (simple_producers_agree w1 v1 m2 n2 w2 v2)) E2 F2).
  assert (m3 = n3) as ->
    by exact (proj1 (proj2 (proj2 (simple_producers_agree w2 v2 m3 n3 w3 v3))) E3 F3).
  assert (m4 = n4) as ->
    by exact (proj1 (proj2 (proj2 (proj2
                (simple_producers_agree w3 v3 m4 n4 w4 v4)))) E4 F4).
  assert (m5 = n5) as ->
    by exact (proj2 (proj2 (proj2 (proj2
                (simple_producers_agree w4 v4 m5 n5 w5 v5)))) E5 F5).
  assert (r7 = s7) as ->.
  { apply (getHostNetworkUsage_agree w6 v6 r7 s7 w7 v7); [| exact E7 | exact F7].
    rewrite <- (getHostNetworkUsage_host w6 r7 w7 E7).
    rewrite <- (getHostNetworkUsage_host v6 s7 v7 F7).
    rewrite Hw7, Hv7. exact Hname. }
  destruct Hend as [(m7 & Hr & E) | (Hr & E)]; rewrite E in H; injection H as <- _;
    (destruct Hend' as [(n7 & Hs & E') | (Hs & E')]; rewrite E' in H';
     injection H' as <- _); rewrite Hr in Hs; try discriminate.
  - injection Hs as <-. split; [reflexivity |].
    intros i Hi.
    do 7 (destruct i as [| i];
          [first [reflexivity | exfalso; apply Hi; reflexivity] |]).
    reflexivity.
  - split; [reflexivity |].
    intros i Hi.
    do 6 (destruct i as [| i];
          [first [reflexivity | exfalso; apply Hi; reflexivity] |]).
    reflexivity.
Qed.

End RetainedSampleScope.

Lemma GetHostMetrics_sample_only_in_cpu_witness :
  match fst (GetHostMetrics samplePlatform (worldOf sampleClient)),
        fst (GetHostMetrics samplePlatform (worldOf warmClient)) with
  | Ok metrics, Ok metrics' =>
      length metrics = length metrics' /\ metrics !! 6 = metrics' !! 6
  | _, _ => False
  end.
Proof.
  pose (r := GetHostMetrics samplePlatform (worldOf sampleClient)).
  pose (s := GetHostMetrics samplePlatform (worldOf warmClient)).
  destruct (GetHostMetrics_sample_only_in_cpu samplePlatform
              (worldOf sampleClient) (worldOf warmClient)
              (match fst r with Ok metrics => metrics | _ => [] end) (snd r)
              (match fst s with Ok metrics => metrics | _ => [] end) (snd s)
              eq_refl eq_refl eq_refl) as [Hlen Hat].
  exact (conj Hlen (Hat 6 (not_eq_sym (n_Sn 5)))).
Defined.

(** ** Keys across the mappings of a cycle *)

Section CycleKeys.

Lemma sharesKey_sound (a b : list string) :
  sharesKey a b = false -> (list_to_set a : gset string) ## list_to_set b.
Proof.
  intros H x Ha Hb.
  apply elem_of_list_to_set, list_elem_of_In in Ha.
  apply elem_of_list_to_set, list_elem_of_In in Hb.
  assert (sharesKey a b = true); [| congruence].
  unfold sharesKey. apply existsb_exists. exists x. split; [exact Ha |].
  apply existsb_exists. exists x. split; [exact Hb | apply String.eqb_refl].
Qed.

Lemma cycle_key_lists_apart (i j : nat) (a b : list string) :
  i <> j ->
  (keysBeforeNetwork ++ [netKeys])%list !! i = Some a ->
  (keysBeforeNetwork ++ [netKeys])%list !! j = Some b ->
  sharesKey a b = false.
Proof.
  intros Hij Hi Hj.
  assert (Hi7 : i < 7) by (apply lookup_lt_Some in Hi; exact Hi).
  assert (Hj7 : j < 7) by (apply lookup_lt_Some in Hj; exact Hj).
  assert (Ei : i = 0 \/ i = 1 \/ i = 2 \/ i = 3 \/ i = 4 \/ i = 5 \/ i = 6) by lia.
  assert (Ej : j = 0 \/ j = 1 \/ j = 2 \/ j = 3 \/ j = 4 \/ j = 5 \/ j = 6) by lia.
  clear Hi7 Hj7.
  destruct Ei as [-> | [-> | [-> | [-> | [-> | [-> | ->]]]]]];
    destruct Ej as [-> | [-> | [-> | [-> | [-> | [-> | ->]]]]]];
    try (exfalso; apply Hij; reflexivity);
    injection Hi as <-; injection Hj as <-; reflexivity.
Qed.

(** X14: no key occurs in two mappings of a sequence a cycle returns: any
    two mappings at different positions have disjoint sets of keys, so
    merging the mappings of a cycle loses no value. *)
Theorem GetHostMetrics_keys_disjoint p w metrics w' (i j : nat) (mi mj : stats) :
  GetHostMetrics p w = (Ok metrics, w') ->
  i <> j ->
  metrics !! i = Some mi ->
  metrics !! j = Some mj ->
  mi ##ₘ mj.
Proof.
  intros H Hij Hi Hj.
  assert (Hkeys : exists keys,
             Forall2 hasKeys metrics keys /\
             forall (n : nat) a, keys !! n = Some a ->
                        (keysBeforeNetwork ++ [netKeys])%list !! n = Some a).
  { destruct (cycle_keys p w metrics w' H) as [Hkeys | Hkeys].
    - eexists. split; [exact Hkeys | intros n a Hn; exact Hn].
    - eexists. split; [exact Hkeys |].
      intros n a Hn. apply lookup_app_l_Some. exact Hn. }
  destruct Hkeys as (keys & Hkeys & Hsub).
  destruct (Forall2_lookup_l _ _ _ _ _ Hkeys Hi) as (a & Ha & Ka).
  destruct (Forall2_lookup_l _ _ _ _ _ Hkeys Hj) as (b & Hb & Kb).
  apply map_disjoint_dom. unfold hasKeys in Ka, Kb. rewrite Ka, Kb.
  apply sharesKey_sound, (cycle_key_lists_apart i j);
    [exact Hij | apply Hsub, Ha | apply Hsub, Hb].
Qed.

Lemma GetHostMetrics_keys_disjoint_witness :
  match fst (GetHostMetrics samplePlatform (worldOf warmClient)) with
  | Ok metrics =>
      match metrics !! 0, metrics !! 6 with
      | Some mi, Some mj => mi ##ₘ mj
      | _, _ => False
      end
  | _ => False
  end.
Proof.
  pose (r := GetHostMetrics samplePlatform (worldOf warmClient)).
  pose (metrics := match fst r with Ok metrics => metrics | _ => [] end).
  exact (GetHostMetrics_keys_disjoint samplePlatform (worldOf warmClient)
           metrics (snd r) 0 6
           (default ∅ (metrics !! 0)) (default ∅ (metrics !! 6))
           eq_refl (O_S 5) eq_refl eq_refl).
Defined.

End CycleKeys.
